(** * thirdweb-dev/js: capability façade, edition supply and drop supply

    A shallow embedding of
    - [NFTCollection.supplyOf] (Solana SDK, edition-marker ledger walk),
    - the [Erc1155] capability façade (EVM SDK: constructor, [detect*]
      helpers, accessors of optional capabilities, [onNetworkUpdated],
      [get]),
    - [SignatureDrop.totalSupply] and the reads it is built from,
    with the properties the specification states about them. *)

From Stdlib Require Import ZArith Lia List Bool.
From stdpp Require Import base option gmap strings pretty.

Local Open Scope Z_scope.

(** ** Capabilities and features *)

(** Modelled from the spec: the feature constants of
    [constants/erc1155-features] are missing from the sources.  A feature
    carries its name (the string the [detect*] helpers pass to
    [detectContractFeature]) and, as the specification has it, the
    capability and the standard family it belongs to. *)
Inductive CapabilityName : Type :=
| Enumerable | Mintable | BatchMintable | Burnable | LazyMintable
| Claimable | ClaimableWithConditions | SignatureMintable | Revealable.

Inductive StandardFamily : Type := ERC20 | ERC721 | ERC1155.

Record Feature : Type := {
  name : string;
  family : StandardFamily;
  capability : CapabilityName
}.

#[global] Instance CapabilityName_eq_dec : EqDecision CapabilityName.
Proof. solve_decision. Defined.
#[global] Instance StandardFamily_eq_dec : EqDecision StandardFamily.
Proof. solve_decision. Defined.
#[global] Instance Feature_eq_dec : EqDecision Feature.
Proof. solve_decision. Defined.

Definition FEATURE_EDITION_ENUMERABLE : Feature :=
  {| name := "ERC1155Enumerable"; family := ERC1155;
     capability := Enumerable |}.
Definition FEATURE_EDITION_MINTABLE : Feature :=
  {| name := "ERC1155Mintable"; family := ERC1155; capability := Mintable |}.
Definition FEATURE_EDITION_BATCH_MINTABLE : Feature :=
  {| name := "ERC1155BatchMintable"; family := ERC1155;
     capability := BatchMintable |}.
Definition FEATURE_EDITION_BURNABLE : Feature :=
  {| name := "ERC1155Burnable"; family := ERC1155; capability := Burnable |}.
Definition FEATURE_EDITION_LAZY_MINTABLE : Feature :=
  {| name := "ERC1155LazyMintable"; family := ERC1155;
     capability := LazyMintable |}.
Definition FEATURE_EDITION_CLAIMABLE : Feature :=
  {| name := "ERC1155Claimable"; family := ERC1155; capability := Claimable |}.
Definition FEATURE_EDITION_CLAIMABLE_WITH_CONDITIONS : Feature :=
  {| name := "ERC1155ClaimableWithConditions"; family := ERC1155;
     capability := ClaimableWithConditions |}.
Definition FEATURE_EDITION_SIGNATURE_MINTABLE : Feature :=
  {| name := "ERC1155SignatureMintable"; family := ERC1155;
     capability := SignatureMintable |}.
Definition FEATURE_EDITION_REVEALABLE : Feature :=
  {| name := "ERC1155Revealable"; family := ERC1155;
     capability := Revealable |}.

(** The optional extensions of the ERC-1155 family. *)
Definition EDITION_FEATURES : list Feature :=
  [ FEATURE_EDITION_ENUMERABLE; FEATURE_EDITION_MINTABLE;
    FEATURE_EDITION_BATCH_MINTABLE; FEATURE_EDITION_BURNABLE;
    FEATURE_EDITION_LAZY_MINTABLE; FEATURE_EDITION_CLAIMABLE;
    FEATURE_EDITION_CLAIMABLE_WITH_CONDITIONS;
    FEATURE_EDITION_SIGNATURE_MINTABLE; FEATURE_EDITION_REVEALABLE ].


(** ** JavaScript values: completions and promises *)

Module Js.

(** The failures that the modelled code raises or lets through. *)
Inductive Error : Type :=
| ExtensionNotImplementedError (feature : Feature)
| NotFoundError
| NumericFault          (* ethers: BigNumber.toNumber() outside 53 bits *)
| NoSignerError         (* no signer connected to the contract wrapper *)
| TypeError             (* a property read on, or a call of, [undefined] *)
| CallException (reason : string). (* a rejected RPC or storage call *)

(** Synchronous completion of an expression: a value, or a [throw]. *)
Inductive Completion (A : Type) : Type :=
| Normal (a : A)
| Throw (e : Error).

Arguments Normal {A} a.
Arguments Throw {A} e.

(** A promise, by the state it settles in. *)
Inductive Promise (A : Type) : Type :=
| Fulfilled (a : A)
| Rejected (e : Error).

Arguments Fulfilled {A} a.
Arguments Rejected {A} e.

Definition bind {A B} (c : Completion A) (k : A -> Completion B)
  : Completion B :=
  match c with
  | Normal a => k a
  | Throw e => Throw e
  end.

(** [async f(..) { body }]: the call itself always completes normally
    with a promise; a [throw] in the body rejects that promise, and a
    promise that the body returns is adopted. *)
Definition async {A} (body : Completion (Promise A))
  : Completion (Promise A) :=
  match body with
  | Normal p => Normal p
  | Throw e => Normal (Rejected e)
  end.

(** [await p] inside an async body. *)
Definition await {A} (p : Promise A) : Completion A :=
  match p with
  | Fulfilled a => Normal a
  | Rejected e => Throw e
  end.

(** [await f(..)] for a call [f(..)] that returns a promise. *)
Definition await_call {A} (c : Completion (Promise A)) : Completion A :=
  bind c await.

(** [p.catch(handler)] with a handler that returns a plain value. *)
Definition catch {A} (p : Promise A) (handler : Error -> A) : Promise A :=
  match p with
  | Fulfilled a => Fulfilled a
  | Rejected e => Fulfilled (handler e)
  end.

(** [Promise.all([p, q])]: fulfilled with both values, rejected as soon
    as one of the two is. *)
Definition all2 {A B} (p : Promise A) (q : Promise B) : Promise (A * B) :=
  match p, q with
  | Fulfilled a, Fulfilled b => Fulfilled (a, b)
  | Rejected e, _ => Rejected e
  | Fulfilled _, Rejected e => Rejected e
  end.

End Js.

(** Completions compose like an error monad; stdpp's [x ← c; k] notation
    sequences them. *)
#[global] Instance completion_ret : MRet Js.Completion :=
  fun _ a => Js.Normal a.
#[global] Instance completion_bind : MBind Js.Completion :=
  fun _ _ k c => Js.bind c k.

(** ** Solana: [NFTCollection.supplyOf] *)

Module NFTCollection.

(** An edition-marker account: its [ledger] is an array of byte values. *)
Definition Ledger := list Z.

(** The chain as [supplyOf] sees it: the edition-marker account stored at
    the address derived from an edition number, if that account exists
    ([EditionMarker.fromAccountAddress] throws when it does not). *)
Definition Accounts := Z -> option Ledger.

(** [editionMarker.ledger[ledgerIndex]]; reading past the end of a JS
    array gives [undefined], and [undefined & bitmask] is [0]. *)
Definition ledger_at (ledger : Ledger) (ledgerIndex : Z) : Z :=
  if ledgerIndex <? 0 then 0 else nth (Z.to_nat ledgerIndex) ledger 0.

Definition indexCap (editionMarkerNumber : Z) : Z :=
  if editionMarkerNumber =? 0 then 247 else 248.

Definition ledgerIndex (editionMarkerNumber editionIndex : Z) : Z :=
  if editionMarkerNumber >? 0 then editionIndex / 8
  else if editionIndex <? 7 then 0
  else (editionIndex - 7) / 8 + 1.

Definition size (editionMarkerNumber ledgerIndex : Z) : Z :=
  if (editionMarkerNumber =? 0) && (ledgerIndex =? 0) then 7 else 8.

(** JS [x << n] and [x >> n] on small non-negative [x]: the shift count is
    taken modulo 32. *)
Definition shl (x n : Z) : Z := Z.shiftl x (Z.land n 31).
Definition shr (x n : Z) : Z := Z.shiftr x (Z.land n 31).

Definition shiftBase (editionMarkerNumber ledgerIndex : Z) : Z :=
  shl 1 (size editionMarkerNumber ledgerIndex - 1).

(** JS [%] is the truncating remainder, [Z.rem]. *)
Definition bitmask (editionMarkerNumber editionIndex : Z) : Z :=
  let ledgerIndex := ledgerIndex editionMarkerNumber editionIndex in
  let shiftBase := shiftBase editionMarkerNumber ledgerIndex in
  if ledgerIndex =? 0 then shr shiftBase editionIndex
  else if editionMarkerNumber >? 0
       then shr shiftBase (Z.rem editionIndex (ledgerIndex * 8))
  else if ledgerIndex =? 1 then shr shiftBase (editionIndex - 7)
  else shr shiftBase (Z.rem (editionIndex - 7) ((ledgerIndex - 1) * 8)).

(** [(editionMarker.ledger[ledgerIndex] & bitmask) !== 0]; the mask is at
    most 128, so [Z.land] on the integers gives the bit that JS reads. *)
Definition editionExists
  (editionMarkerNumber : Z) (ledger : Ledger) (editionIndex : Z) : bool :=
  negb (Z.land (ledger_at ledger (ledgerIndex editionMarkerNumber editionIndex))
               (bitmask editionMarkerNumber editionIndex) =? 0).

(** The inner [for] loop, [n] iterations still to run; the boolean tells
    whether the loop left through [break cursedBitwiseLogicLoop]. *)
Fixpoint scan_page (n : nat) (editionMarkerNumber : Z) (ledger : Ledger)
  (editionIndex totalSupply : Z) : Z * bool :=
  match n with
  | O => (totalSupply, false)
  | S n' =>
      if editionExists editionMarkerNumber ledger editionIndex
      then scan_page n' editionMarkerNumber ledger
             (editionIndex + 1) (totalSupply + 1)
      else (totalSupply, true)
  end.

Inductive Outcome : Type :=
| Return (totalSupply : Z)
| AccountNotFound (editionMarkerNumber : Z)
| Running. (* the [while (true)] loop has not finished within the fuel *)

(** The [while (true)] loop; one unit of fuel per edition-marker page. *)
Fixpoint supplyOf_loop (fuel : nat) (accounts : Accounts)
  (editionMarkerNumber totalSupply : Z) : Outcome :=
  match fuel with
  | O => Running
  | S fuel' =>
      match accounts (editionMarkerNumber * 248) with
      | None => AccountNotFound editionMarkerNumber
      | Some ledger =>
          let '(totalSupply', broke) :=
            scan_page (Z.to_nat (indexCap editionMarkerNumber))
              editionMarkerNumber ledger 0 totalSupply in
          if broke then Return totalSupply'
          else supplyOf_loop fuel' accounts (editionMarkerNumber + 1) totalSupply'
      end
  end.

Definition supplyOf (fuel : nat) (accounts : Accounts) : Outcome :=
  supplyOf_loop fuel accounts 0 1.

(** *** The ledger in walking order

    The [k]-th bit that the walk looks at ([k] counted from 0) lies on
    page [page_of k] at edition index [index_of k]. *)
Definition page_start (page : Z) : Z :=
  if page <=? 0 then 0 else 247 + 248 * (page - 1).

Definition page_of (k : Z) : Z :=
  if k <? 247 then 0 else (k - 247) / 248 + 1.

Definition index_of (k : Z) : Z := k - page_start (page_of k).

(** The [k]-th bit of the walk, when the account of its page exists. *)
Definition walk_bit (accounts : Accounts) (k : Z) : option bool :=
  match accounts (page_of k * 248) with
  | Some ledger => Some (editionExists (page_of k) ledger (index_of k))
  | None => None
  end.

(** [k] is the first unset bit of the ledger, in walking order. *)
Definition first_gap (accounts : Accounts) (k : Z) : Prop :=
  0 <= k /\ walk_bit accounts k = Some false /\
  forall j, 0 <= j < k -> walk_bit accounts j = Some true.

(** Every page up to and including [page] has an account. *)
Definition pages_exist (accounts : Accounts) (page : Z) : Prop :=
  forall p, 0 <= p <= page -> is_Some (accounts (p * 248)).

(** The ledger as a bit field: position [pos] of a page is bit
    [7 - pos mod 8] of byte [pos / 8] (most significant bit first). *)
Definition ledger_bit (ledger : Ledger) (pos : Z) : bool :=
  Z.testbit (ledger_at ledger (pos / 8)) (7 - pos mod 8).

(** The page position that edition index [i] of a page stands for: page 0
    starts one position in. *)
Definition position (editionMarkerNumber editionIndex : Z) : Z :=
  if editionMarkerNumber =? 0 then editionIndex + 1 else editionIndex.

(** The edition indices [0 .. n-1], for checks by enumeration. *)
Definition indices (n : nat) : list Z := map Z.of_nat (seq 0 n).

(** Index [i] of page [n] reads byte [position / 8] under the mask
    [2 ^ (7 - position mod 8)]. *)
Definition mask_ok (editionMarkerNumber editionIndex : Z) : bool :=
  (ledgerIndex editionMarkerNumber editionIndex
   =? position editionMarkerNumber editionIndex / 8)
  && (bitmask editionMarkerNumber editionIndex
      =? 2 ^ (7 - position editionMarkerNumber editionIndex mod 8)).

End NFTCollection.


(** ** Capability probe, registry and guarded accessor *)

Module Probe.

(** An interface descriptor is the set of selectors of one deployed
    contract. *)
Abbreviation InterfaceDescriptor := (gset string).

Inductive SupportLevel : Type := NONE | PARTIAL | FULL.

#[global] Instance SupportLevel_eq_dec : EqDecision SupportLevel.
Proof. solve_decision. Defined.

Record CapabilityRequirement : Type := {
  required : gset string;  (* every selector of the capability *)
  minimal : gset string    (* the subset that gives degraded operation *)
}.

(** The registry: per standard family, the requirement of each
    capability.  The table of the repository is missing from the
    sources; the development is parametric in it. *)
Definition Registry : Type :=
  StandardFamily -> CapabilityName -> CapabilityRequirement.

(** Modelled from the spec: the probe [supports(descriptor, requirement)]
    (§4.1) is missing from the sources.  "Returns FULL if coverage is
    complete, PARTIAL if the minimal subset is covered, else NONE." *)
Definition supports (descriptor : InterfaceDescriptor)
  (requirement : CapabilityRequirement) : SupportLevel :=
  if decide (required requirement ⊆ descriptor) then FULL
  else if decide (minimal requirement ⊆ descriptor) then PARTIAL
  else NONE.

(** Modelled from the spec: [detectContractFeature] of [common] is
    missing from the sources.  It answers for the feature called
    [featureName]; "a CapabilityHandle is constructed if and only if the
    Probe reports SupportLevel >= FULL" (§3), and a name that the family
    does not know is nowhere supported. *)
Definition featureByName (featureName : string) : option Feature :=
  find (fun f => bool_decide (name f = featureName)) EDITION_FEATURES.

Definition detectContractFeature (requirementsFor : Registry)
  (abi : InterfaceDescriptor) (featureName : string) : bool :=
  match featureByName featureName with
  | Some f =>
      bool_decide
        (supports abi (requirementsFor (family f) (capability f)) = FULL)
  | None => false
  end.

(** Modelled from the spec: [assertEnabled] of [common] is missing from
    the sources; it is the guarded accessor
    [require(handleOrAbsent, capabilityName)] of §4.5: a present handle
    is returned unchanged, an absent one fails with
    [ExtensionNotImplemented] carrying the feature. *)
Definition assertEnabled {T} (namespace : option T) (feature : Feature)
  : Js.Completion T :=
  match namespace with
  | Some handle => Js.Normal handle
  | None => Js.Throw (Js.ExtensionNotImplementedError feature)
  end.

End Probe.

(** ** EVM: the shared contract wrapper and the object store *)

Module Evm.

Definition Address := string.
Definition AddressZero : Address :=
  "0x0000000000000000000000000000000000000000".

(** [NetworkOrSignerOrProvider], by name. *)
Definition Network := string.

(** The read methods of the connected contract that the modelled code
    calls.  The contract object has a method for each function of its ABI
    and for no other: a method that is not there is [None], one that is
    there returns a promise.  [BigNumber]s are unbounded integers. *)
Record ReadContract : Type := {
  totalSupply : option (Z -> Js.Promise Z);
  uri : option (Z -> Js.Promise string)
}.

(** [readContract.method(arg)]: calling a method that is not there, which
    is [undefined], throws a [TypeError] at the call. *)
Definition call_method {A B} (method : option (A -> Js.Promise B)) (arg : A)
  : Js.Completion (Js.Promise B) :=
  match method with
  | Some f => Js.Normal (f arg)
  | None => Js.Throw Js.TypeError
  end.

(** The contract wrapper: one mutable object that the façade and all of
    its capability handles refer to. *)
Record ContractWrapper : Type := {
  abi : gset string;
  signerOrProvider : Network;
  signer : option Address;
  readContract : ReadContract
}.

Definition NFTMetadata := string.

(** The storage collaborator, by what [fetchTokenMetadata] (missing from
    the sources) answers for a token id and a token URI. *)
Record ThirdwebStorage : Type := {
  fetchTokenMetadata : Z -> string -> Js.Promise NFTMetadata
}.

(** The store: the contract wrappers by reference, and the number of
    capability handles constructed so far (the identity given to the next
    one). *)
Record Heap : Type := {
  wrappers : gmap nat ContractWrapper;
  next_oid : nat
}.

(** Store-passing computations that may throw. *)
Definition M (A : Type) : Type := Heap -> Js.Completion (A * Heap).

Definition ret {A} (a : A) : M A := fun heap => Js.Normal (a, heap).

Definition bind {A B} (m : M A) (k : A -> M B) : M B :=
  fun heap =>
    match m heap with
    | Js.Normal (a, heap') => k a heap'
    | Js.Throw e => Js.Throw e
    end.

(** [contractWrapper.<field>]: reading through a reference. *)
Definition deref (contractWrapper : nat) : M ContractWrapper :=
  fun heap =>
    match wrappers heap !! contractWrapper with
    | Some w => Js.Normal (w, heap)
    | None => Js.Throw Js.TypeError
    end.

(** Mutation of the wrapper behind a reference. *)
Definition assign (contractWrapper : nat) (w : ContractWrapper) : M unit :=
  fun heap =>
    Js.Normal (tt, {| wrappers := <[contractWrapper := w]> (wrappers heap);
                      next_oid := next_oid heap |}).

(** A capability handle: an object with its own identity, bound to the
    contract wrapper it was constructed with. *)
Record Handle : Type := {
  oid : nat;
  bound_to : nat
}.

(** [new C(.., contractWrapper, ..)] for a handle class [C]. *)
Definition new_handle (contractWrapper : nat) : M Handle :=
  fun heap =>
    Js.Normal ({| oid := next_oid heap; bound_to := contractWrapper |},
               {| wrappers := wrappers heap; next_oid := S (next_oid heap) |}).

(** The store after a computation that only constructs handles. *)
Definition grows (heap heap' : Heap) : Prop :=
  wrappers heap' = wrappers heap /\ (next_oid heap <= next_oid heap')%nat.

(** [contractWrapper.getSignerAddress()]; the class [ContractWrapper] is
    missing from the sources, and the call is taken to be rejected when no
    signer is connected. *)
Definition getSignerAddress (w : ContractWrapper) : Js.Promise Address :=
  match signer w with
  | Some a => Js.Fulfilled a
  | None => Js.Rejected Js.NoSignerError
  end.

(** [BigNumber.toNumber()] of ethers 5: values of more than 53 bits are
    refused with a fault. *)
Definition toNumber (b : Z) : Js.Completion Z :=
  if Z.abs b <? 2 ^ 53 then Js.Normal b else Js.Throw Js.NumericFault.

End Evm.

#[global] Instance store_ret : MRet Evm.M := @Evm.ret.
#[global] Instance store_bind : MBind Evm.M := fun _ _ k m => Evm.bind m k.

(** ** EVM: the [Erc1155] façade *)

Module Erc1155.

Import Js Probe Evm.

(** Arguments and results of the capability handles' methods. *)
Inductive Value : Type :=
| VUndefined
| VString (s : string)
| VNumber (n : Z)
| VStrings (l : list string)
| VNumbers (l : list Z).

(** [Erc1155Mintable]: the handle and its [batch] field. *)
Record Erc1155Mintable : Type := {
  mintable_handle : Handle;
  mintable_batch : option Handle
}.

(** The claim-conditions extension and its [conditions] field. *)
Record Erc1155ClaimableWithConditions : Type := {
  claimable_handle : Handle;
  conditions : Handle
}.

(** [Erc1155LazyMintable]: the handle and its [claim],
    [claimWithConditions] and [revealer] fields. *)
Record Erc1155LazyMintable : Type := {
  lazyMintable_handle : Handle;
  lazy_claim : option Handle;
  lazy_claimWithConditions : option Erc1155ClaimableWithConditions;
  lazy_revealer : option Handle
}.

Record Erc1155 : Type := {
  contractWrapper : nat;
  storage : ThirdwebStorage;
  query : option Handle;
  mintable : option Erc1155Mintable;
  burnable : option Handle;
  lazyMintable : option Erc1155LazyMintable;
  signatureMintable : option Handle
}.

Record NFT : Type := {
  owner : Address;
  metadata : NFTMetadata;
  type : string;
  supply : Z
}.

Section Facade.

(** The registry of the repository, and what the methods of the capability
    handles return: both are missing from the sources and left open. *)
Variable requirementsFor : Registry.
Variable invoke : Handle -> string -> list Value -> Promise Value.

(** [if (detectContractFeature(contractWrapper, featureName)) return new C(..);
    return undefined;] for a handle class [C] without fields of its own. *)
Definition detect (contractWrapper : nat) (featureName : string)
  : M (option Handle) :=
  w ← deref contractWrapper;
  if detectContractFeature requirementsFor (abi w) featureName
  then h ← new_handle contractWrapper; mret (Some h)
  else mret None.

(** Modelled from the spec: the constructor of [Erc1155Mintable] is missing
    from the sources.  The batch handle is held by the mintable handle
    (§4.3, composite capability) and is constructed when the probe finds
    BatchMintable. *)
Definition new_Erc1155Mintable (contractWrapper : nat) : M Erc1155Mintable :=
  h ← new_handle contractWrapper;
  batch ← detect contractWrapper "ERC1155BatchMintable";
  mret {| mintable_handle := h; mintable_batch := batch |}.

(** Modelled from the spec: the constructor of [Erc1155LazyMintable] is
    missing from the sources.  Its three fields are constructed when the
    probe finds the capability each stands for (§4.3). *)
Definition new_Erc1155LazyMintable (contractWrapper : nat)
  : M Erc1155LazyMintable :=
  h ← new_handle contractWrapper;
  claim ← detect contractWrapper "ERC1155Claimable";
  w ← deref contractWrapper;
  claimWithConditions ←
    (if detectContractFeature requirementsFor (abi w)
          "ERC1155ClaimableWithConditions"
     then c ← new_handle contractWrapper;
          d ← new_handle contractWrapper;
          mret (Some {| claimable_handle := c; conditions := d |})
     else mret None);
  revealer ← detect contractWrapper "ERC1155Revealable";
  mret {| lazyMintable_handle := h; lazy_claim := claim;
          lazy_claimWithConditions := claimWithConditions;
          lazy_revealer := revealer |}.

Definition detectErc1155Enumerable (contractWrapper : nat)
  : M (option Handle) :=
  detect contractWrapper "ERC1155Enumerable".

Definition detectErc1155Mintable (contractWrapper : nat)
  : M (option Erc1155Mintable) :=
  w ← deref contractWrapper;
  if detectContractFeature requirementsFor (abi w) "ERC1155Mintable"
  then m ← new_Erc1155Mintable contractWrapper; mret (Some m)
  else mret None.

Definition detectErc1155Burnable (contractWrapper : nat)
  : M (option Handle) :=
  detect contractWrapper "ERC1155Burnable".

Definition detectErc1155LazyMintable (contractWrapper : nat)
  : M (option Erc1155LazyMintable) :=
  w ← deref contractWrapper;
  if detectContractFeature requirementsFor (abi w) "ERC1155LazyMintable"
  then l ← new_Erc1155LazyMintable contractWrapper; mret (Some l)
  else mret None.

Definition detectErc1155SignatureMintable (contractWrapper : nat)
  : M (option Handle) :=
  detect contractWrapper "ERC1155SignatureMintable".

(** [constructor(contractWrapper, storage)] *)
Definition new_Erc1155 (contractWrapper : nat) (storage : ThirdwebStorage)
  : M Erc1155 :=
  query ← detectErc1155Enumerable contractWrapper;
  mintable ← detectErc1155Mintable contractWrapper;
  burnable ← detectErc1155Burnable contractWrapper;
  lazyMintable ← detectErc1155LazyMintable contractWrapper;
  signatureMintable ← detectErc1155SignatureMintable contractWrapper;
  mret {| contractWrapper := contractWrapper; storage := storage;
          query := query; mintable := mintable; burnable := burnable;
          lazyMintable := lazyMintable;
          signatureMintable := signatureMintable |}.

(** [ContractWrapper.updateSignerOrProvider] is missing from the sources
    and left open: any update of the wrapper in place. *)
Variable updateSignerOrProvider : Network -> ContractWrapper -> ContractWrapper.

(** [onNetworkUpdated(network)]: the wrapper that the façade refers to is
    updated in place; the result is the façade object after the call. *)
Definition onNetworkUpdated (this : Erc1155) (network : Network) : M Erc1155 :=
  w ← deref (contractWrapper this);
  _ ← assign (contractWrapper this) (updateSignerOrProvider network w);
  mret this.

(** [this.contractWrapper], read in the current store. *)
Definition wrapper_of (heap : Heap) (this : Erc1155)
  : Completion ContractWrapper :=
  match wrappers heap !! contractWrapper this with
  | Some w => Normal w
  | None => Throw TypeError
  end.

(** *** Standard ERC1155 functions *)

Definition getTokenMetadata (heap : Heap) (this : Erc1155) (tokenId : Z)
  : Completion (Promise NFTMetadata) :=
  async (
    w ← wrapper_of heap this;
    tokenUri ← await_call (call_method (uri (readContract w)) tokenId);
    if bool_decide (tokenUri = "") then Throw NotFoundError
    else mret (fetchTokenMetadata (storage this) tokenId tokenUri)).

(** The elements of the array handed to [Promise.all] are evaluated in
    order: [readContract.totalSupply(tokenId)] is called first and
    [.catch] attached to the promise it returns, then [getTokenMetadata]
    is called. *)
Definition get (heap : Heap) (this : Erc1155) (tokenId : Z)
  : Completion (Promise NFT) :=
  async (
    w ← wrapper_of heap this;
    supply_call ← call_method (totalSupply (readContract w)) tokenId;
    let supply_promise := catch supply_call (fun _ => 0) in
    metadata_promise ← getTokenMetadata heap this tokenId;
    '(supply, metadata) ← await (all2 supply_promise metadata_promise);
    supply_number ← toNumber supply;
    mret (Fulfilled {| owner := AddressZero; metadata := metadata;
                       type := "ERC1155"; supply := supply_number |})).

Definition totalSupply (heap : Heap) (this : Erc1155) (tokenId : Z)
  : Completion (Promise Z) :=
  async (
    w ← wrapper_of heap this;
    v ← await_call (call_method (Evm.totalSupply (readContract w)) tokenId);
    mret (Fulfilled v)).


(** *** ERC1155 Enumerable extension *)

Definition getAll (this : Erc1155) (queryParams : Value)
  : Completion (Promise Value) :=
  async (
    h ← assertEnabled (query this) FEATURE_EDITION_ENUMERABLE;
    mret (invoke h "all" [queryParams])).

Definition totalCount (this : Erc1155) : Completion (Promise Value) :=
  async (
    h ← assertEnabled (query this) FEATURE_EDITION_ENUMERABLE;
    mret (invoke h "totalCount" [])).

Definition totalCirculatingSupply (this : Erc1155) (tokenId : Z)
  : Completion (Promise Value) :=
  async (
    h ← assertEnabled (query this) FEATURE_EDITION_ENUMERABLE;
    mret (invoke h "totalCirculatingSupply" [VNumber tokenId])).

Definition getOwned (this : Erc1155) (walletAddress : Value)
  : Completion (Promise Value) :=
  async (
    h ← assertEnabled (query this) FEATURE_EDITION_ENUMERABLE;
    mret (invoke h "owned" [walletAddress])).

(** *** ERC1155 Mintable extension *)

Definition mintTo (this : Erc1155) (receiver : Address)
  (metadataWithSupply : Value) : Completion (Promise Value) :=
  async (
    m ← assertEnabled (mintable this) FEATURE_EDITION_MINTABLE;
    mret (invoke (mintable_handle m) "to"
            [VString receiver; metadataWithSupply])).

Definition mint (heap : Heap) (this : Erc1155) (metadataWithSupply : Value)
  : Completion (Promise Value) :=
  async (
    w ← wrapper_of heap this;
    signerAddress ← await (getSignerAddress w);
    mintTo this signerAddress metadataWithSupply).

(** The callee [assertEnabled(..).additionalSupplyTo] is evaluated before
    the argument [await this.contractWrapper.getSignerAddress()]. *)
Definition mintAdditionalSupply (heap : Heap) (this : Erc1155)
  (tokenId additionalSupply : Z) : Completion (Promise Value) :=
  async (
    m ← assertEnabled (mintable this) FEATURE_EDITION_MINTABLE;
    w ← wrapper_of heap this;
    signerAddress ← await (getSignerAddress w);
    mret (invoke (mintable_handle m) "additionalSupplyTo"
            [VString signerAddress; VNumber tokenId; VNumber additionalSupply])).

Definition mintAdditionalSupplyTo (this : Erc1155) (receiver : Address)
  (tokenId additionalSupply : Z) : Completion (Promise Value) :=
  async (
    m ← assertEnabled (mintable this) FEATURE_EDITION_MINTABLE;
    mret (invoke (mintable_handle m) "additionalSupplyTo"
            [VString receiver; VNumber tokenId; VNumber additionalSupply])).

(** *** ERC1155 BatchMintable extension *)

Definition mintBatchTo (this : Erc1155) (receiver : Address)
  (metadataWithSupply : list string) : Completion (Promise Value) :=
  async (
    b ← assertEnabled (mintable this ≫= mintable_batch)
          FEATURE_EDITION_BATCH_MINTABLE;
    mret (invoke b "to" [VString receiver; VStrings metadataWithSupply])).

Definition mintBatch (heap : Heap) (this : Erc1155)
  (metadataWithSupply : list string) : Completion (Promise Value) :=
  async (
    w ← wrapper_of heap this;
    signerAddress ← await (getSignerAddress w);
    mintBatchTo this signerAddress metadataWithSupply).

(** *** ERC1155 Burnable extension *)

Definition burn (this : Erc1155) (tokenId amount : Z)
  : Completion (Promise Value) :=
  async (
    h ← assertEnabled (burnable this) FEATURE_EDITION_BURNABLE;
    mret (invoke h "tokens" [VNumber tokenId; VNumber amount])).

Definition burnFrom (this : Erc1155) (account : Address) (tokenId amount : Z)
  : Completion (Promise Value) :=
  async (
    h ← assertEnabled (burnable this) FEATURE_EDITION_BURNABLE;
    mret (invoke h "from" [VString account; VNumber tokenId; VNumber amount])).

Definition burnBatch (this : Erc1155) (tokenIds amounts : list Z)
  : Completion (Promise Value) :=
  async (
    h ← assertEnabled (burnable this) FEATURE_EDITION_BURNABLE;
    mret (invoke h "batch" [VNumbers tokenIds; VNumbers amounts])).

Definition burnBatchFrom (this : Erc1155) (account : Address)
  (tokenIds amounts : list Z) : Completion (Promise Value) :=
  async (
    h ← assertEnabled (burnable this) FEATURE_EDITION_BURNABLE;
    mret (invoke h "batchFrom"
            [VString account; VNumbers tokenIds; VNumbers amounts])).

(** *** ERC1155 LazyMint extension *)

Definition lazyMint (this : Erc1155) (metadatas : list string)
  (options : Value) : Completion (Promise Value) :=
  async (
    l ← assertEnabled (lazyMintable this) FEATURE_EDITION_LAZY_MINTABLE;
    mret (invoke (lazyMintable_handle l) "lazyMint"
            [VStrings metadatas; options])).

(** *** ERC1155 Claimable extension *)

Definition getClaimTransaction (this : Erc1155) (destinationAddress : Address)
  (tokenId quantity : Z) (options : Value) : Completion (Promise Value) :=
  async (
    let claimWithConditions := lazyMintable this ≫= lazy_claimWithConditions in
    let claim := lazyMintable this ≫= lazy_claim in
    match claimWithConditions, claim with
    | Some c, _ =>
        mret (invoke (claimable_handle c) "getClaimTransaction"
                [VString destinationAddress; VNumber tokenId;
                 VNumber quantity; options])
    | None, Some c =>
        mret (invoke c "getClaimTransaction"
                [VString destinationAddress; VNumber tokenId;
                 VNumber quantity; options])
    | None, None =>
        Throw (ExtensionNotImplementedError FEATURE_EDITION_CLAIMABLE)
    end).

Definition claimTo (this : Erc1155) (destinationAddress : Address)
  (tokenId quantity : Z) (options : Value) : Completion (Promise Value) :=
  async (
    let claimWithConditions := lazyMintable this ≫= lazy_claimWithConditions in
    let claim := lazyMintable this ≫= lazy_claim in
    match claimWithConditions, claim with
    | Some c, _ =>
        mret (invoke (claimable_handle c) "to"
                [VString destinationAddress; VNumber tokenId;
                 VNumber quantity; options])
    | None, Some c =>
        mret (invoke c "to"
                [VString destinationAddress; VNumber tokenId;
                 VNumber quantity; options])
    | None, None =>
        Throw (ExtensionNotImplementedError FEATURE_EDITION_CLAIMABLE)
    end).

Definition claim (heap : Heap) (this : Erc1155) (tokenId quantity : Z)
  (options : Value) : Completion (Promise Value) :=
  async (
    w ← wrapper_of heap this;
    signerAddress ← await (getSignerAddress w);
    claimTo this signerAddress tokenId quantity options).

(** [get claimConditions()] *)
Definition claimConditions (this : Erc1155) : Completion Handle :=
  c ← assertEnabled (lazyMintable this ≫= lazy_claimWithConditions)
        FEATURE_EDITION_CLAIMABLE_WITH_CONDITIONS;
  mret (conditions c).

(** *** ERC1155 SignatureMintable extension: [get signature()] *)
Definition signature (this : Erc1155) : Completion Handle :=
  assertEnabled (signatureMintable this) FEATURE_EDITION_SIGNATURE_MINTABLE.

(** *** ERC1155 DelayedReveal extension: [get revealer()] *)
Definition revealer (this : Erc1155) : Completion Handle :=
  assertEnabled (lazyMintable this ≫= lazy_revealer) FEATURE_EDITION_REVEALABLE.

(** *** The accessors of optional capabilities, as a table

    One entry per member of the façade that raises
    [ExtensionNotImplementedError] itself, with the arguments of the call. *)
Inductive Accessor : Type :=
| GetAll (queryParams : Value)
| TotalCount
| TotalCirculatingSupply (tokenId : Z)
| GetOwned (walletAddress : Value)
| MintTo (receiver : Address) (metadataWithSupply : Value)
| MintAdditionalSupply (tokenId additionalSupply : Z)
| MintAdditionalSupplyTo (receiver : Address) (tokenId additionalSupply : Z)
| MintBatchTo (receiver : Address) (metadataWithSupply : list string)
| Burn (tokenId amount : Z)
| BurnFrom (account : Address) (tokenId amount : Z)
| BurnBatch (tokenIds amounts : list Z)
| BurnBatchFrom (account : Address) (tokenIds amounts : list Z)
| LazyMint (metadatas : list string) (options : Value)
| GetClaimTransaction (destinationAddress : Address) (tokenId quantity : Z)
    (options : Value)
| ClaimTo (destinationAddress : Address) (tokenId quantity : Z)
    (options : Value)
| ClaimConditions
| Signature
| Revealer.

(** A method is declared [async], a getter is not. *)
Definition is_async (a : Accessor) : bool :=
  match a with
  | ClaimConditions | Signature | Revealer => false
  | _ => true
  end.

(** What a call hands back when it completes normally. *)
Inductive Returned : Type :=
| AsPromise (p : Promise Value)
| AsHandle (h : Handle).

Definition returning_promise (c : Completion (Promise Value))
  : Completion Returned :=
  p ← c; mret (AsPromise p).

Definition returning_handle (c : Completion Handle) : Completion Returned :=
  h ← c; mret (AsHandle h).

Definition run (heap : Heap) (this : Erc1155) (a : Accessor)
  : Completion Returned :=
  match a with
  | GetAll queryParams => returning_promise (getAll this queryParams)
  | TotalCount => returning_promise (totalCount this)
  | TotalCirculatingSupply tokenId =>
      returning_promise (totalCirculatingSupply this tokenId)
  | GetOwned walletAddress => returning_promise (getOwned this walletAddress)
  | MintTo receiver metadataWithSupply =>
      returning_promise (mintTo this receiver metadataWithSupply)
  | MintAdditionalSupply tokenId additionalSupply =>
      returning_promise (mintAdditionalSupply heap this tokenId additionalSupply)
  | MintAdditionalSupplyTo receiver tokenId additionalSupply =>
      returning_promise
        (mintAdditionalSupplyTo this receiver tokenId additionalSupply)
  | MintBatchTo receiver metadataWithSupply =>
      returning_promise (mintBatchTo this receiver metadataWithSupply)
  | Burn tokenId amount => returning_promise (burn this tokenId amount)
  | BurnFrom account tokenId amount =>
      returning_promise (burnFrom this account tokenId amount)
  | BurnBatch tokenIds amounts =>
      returning_promise (burnBatch this tokenIds amounts)
  | BurnBatchFrom account tokenIds amounts =>
      returning_promise (burnBatchFrom this account tokenIds amounts)
  | LazyMint metadatas options =>
      returning_promise (lazyMint this metadatas options)
  | GetClaimTransaction destinationAddress tokenId quantity options =>
      returning_promise
        (getClaimTransaction this destinationAddress tokenId quantity options)
  | ClaimTo destinationAddress tokenId quantity options =>
      returning_promise
        (claimTo this destinationAddress tokenId quantity options)
  | ClaimConditions => returning_handle (claimConditions this)
  | Signature => returning_handle (signature this)
  | Revealer => returning_handle (revealer this)
  end.

End Facade.

(** The feature that an accessor names in its
    [ExtensionNotImplementedError]. *)
Definition guard (a : Accessor) : Feature :=
  match a with
  | GetAll _ | TotalCount | TotalCirculatingSupply _ | GetOwned _ =>
      FEATURE_EDITION_ENUMERABLE
  | MintTo _ _ | MintAdditionalSupply _ _ | MintAdditionalSupplyTo _ _ _ =>
      FEATURE_EDITION_MINTABLE
  | MintBatchTo _ _ => FEATURE_EDITION_BATCH_MINTABLE
  | Burn _ _ | BurnFrom _ _ _ | BurnBatch _ _ | BurnBatchFrom _ _ _ =>
      FEATURE_EDITION_BURNABLE
  | LazyMint _ _ => FEATURE_EDITION_LAZY_MINTABLE
  | GetClaimTransaction _ _ _ _ | ClaimTo _ _ _ _ => FEATURE_EDITION_CLAIMABLE
  | ClaimConditions => FEATURE_EDITION_CLAIMABLE_WITH_CONDITIONS
  | Signature => FEATURE_EDITION_SIGNATURE_MINTABLE
  | Revealer => FEATURE_EDITION_REVEALABLE
  end.

(** The capabilities whose handle an accessor hands the call to: the one
    it names, and for [claimTo] and [getClaimTransaction] the
    claim-conditions extension before it. *)
Definition serves (a : Accessor) : list CapabilityName :=
  match a with
  | GetClaimTransaction _ _ _ _ | ClaimTo _ _ _ _ =>
      [ClaimableWithConditions; Claimable]
  | _ => [capability (guard a)]
  end.

Definition defined {A} (o : option A) : bool :=
  match o with Some _ => true | None => false end.

(** The façade field (or field of a field) that stands for a capability. *)
Definition present (this : Erc1155) (c : CapabilityName) : bool :=
  match c with
  | Enumerable => defined (query this)
  | Mintable => defined (mintable this)
  | BatchMintable => defined (mintable this ≫= mintable_batch)
  | Burnable => defined (burnable this)
  | LazyMintable => defined (lazyMintable this)
  | Claimable => defined (lazyMintable this ≫= lazy_claim)
  | ClaimableWithConditions =>
      defined (lazyMintable this ≫= lazy_claimWithConditions)
  | SignatureMintable => defined (signatureMintable this)
  | Revealable => defined (lazyMintable this ≫= lazy_revealer)
  end.

(** Every handle object that the façade holds, directly or through
    another handle. *)
Definition handles_of_mintable (m : Erc1155Mintable) : list Handle :=
  mintable_handle m :: option_list (mintable_batch m).

Definition handles_of_lazyMintable (l : Erc1155LazyMintable) : list Handle :=
  lazyMintable_handle l
  :: option_list (lazy_claim l)
  ++ from_option (fun c => [claimable_handle c; conditions c])
       [] (lazy_claimWithConditions l)
  ++ option_list (lazy_revealer l).

Definition handles (this : Erc1155) : list Handle :=
  option_list (query this)
  ++ from_option handles_of_mintable [] (mintable this)
  ++ option_list (burnable this)
  ++ from_option handles_of_lazyMintable [] (lazyMintable this)
  ++ option_list (signatureMintable this).

(** The handles of a façade were all constructed after the store [before]
    was current. *)
Definition rederived (before : Heap) (this : Erc1155) : Prop :=
  forall h, In h (handles this) -> (next_oid before <= oid h)%nat.

(** What the probe says of each capability of the façade: a capability
    that lives in a field of another handle is there when both are found. *)
Definition detected (requirementsFor : Registry) (abi : gset string)
  (c : CapabilityName) : bool :=
  let found := detectContractFeature requirementsFor abi in
  match c with
  | Enumerable => found "ERC1155Enumerable"
  | Mintable => found "ERC1155Mintable"
  | BatchMintable => found "ERC1155Mintable" && found "ERC1155BatchMintable"
  | Burnable => found "ERC1155Burnable"
  | LazyMintable => found "ERC1155LazyMintable"
  | Claimable => found "ERC1155LazyMintable" && found "ERC1155Claimable"
  | ClaimableWithConditions =>
      found "ERC1155LazyMintable" && found "ERC1155ClaimableWithConditions"
  | SignatureMintable => found "ERC1155SignatureMintable"
  | Revealable => found "ERC1155LazyMintable" && found "ERC1155Revealable"
  end.

(** The call fails with [e]: thrown at the call site, or as the rejection
    of the promise that the call returns. *)
Definition fails_with (c : Completion Returned) (e : Error) : Prop :=
  c = Throw e \/ c = Normal (AsPromise (Rejected e)).

End Erc1155.

(** ** EVM: [SignatureDrop] supply reads *)

Module SignatureDrop.

Import Js.

(** What the connected contract answers to [totalMinted()] and
    [nextTokenIdToMint()], read from one state of the chain. *)
Record ReadContract : Type := {
  totalMinted : Promise Z;
  nextTokenIdToMint : Promise Z
}.

Definition totalClaimedSupply (readContract : ReadContract)
  : Completion (Promise Z) :=
  async (
    minted ← await (totalMinted readContract);
    mret (Fulfilled minted)).

(** [maxSupply.sub(..)] on ethers [BigNumber]s, which are unbounded and
    signed. *)
Definition totalUnclaimedSupply (readContract : ReadContract)
  : Completion (Promise Z) :=
  async (
    maxSupply ← await (nextTokenIdToMint readContract);
    claimed ← await_call (totalClaimedSupply readContract);
    mret (Fulfilled (maxSupply - claimed))).

Definition totalSupply (readContract : ReadContract)
  : Completion (Promise Z) :=
  async (
    claimed ← await_call (totalClaimedSupply readContract);
    unclaimed ← await_call (totalUnclaimedSupply readContract);
    mret (Fulfilled (claimed + unclaimed))).

End SignatureDrop.

(** ** A registry and contracts to run the model on *)

Module Sample.

Import Js Probe Evm Erc1155.

Definition core : gset string :=
  {[ "balanceOf"; "safeTransferFrom"; "setApprovalForAll"; "uri" ]}.

Definition selectors (c : CapabilityName) : gset string :=
  match c with
  | Enumerable => {[ "nextTokenIdToMint" ]}
  | Mintable => {[ "mintTo" ]}
  | BatchMintable => {[ "multicall" ]}
  | Burnable => {[ "burn"; "burnBatch" ]}
  | LazyMintable => {[ "lazyMint" ]}
  | Claimable => {[ "claim" ]}
  | ClaimableWithConditions => {[ "claimCondition"; "setClaimConditions" ]}
  | SignatureMintable => {[ "mintWithSignature"; "verify" ]}
  | Revealable => {[ "reveal"; "encryptDecrypt" ]}
  end.

Definition registry : Registry :=
  fun _ c => {| required := selectors c; minimal := selectors c |}.

Definition reads : Evm.ReadContract :=
  {| Evm.totalSupply := Some (fun _ => Fulfilled 5);
     Evm.uri := Some (fun _ => Fulfilled "ipfs://token") |}.

Definition wrapper (abi : gset string) : ContractWrapper :=
  {| abi := abi; signerOrProvider := "mainnet"; signer := Some "0xsigner";
     readContract := reads |}.

Definition heap_of (w : ContractWrapper) : Heap :=
  {| wrappers := {[ 0%nat := w ]}; next_oid := 0 |}.

Definition store : ThirdwebStorage :=
  {| fetchTokenMetadata := fun _ tokenUri => Fulfilled tokenUri |}.

(** Handle methods that answer with the name of the method called. *)
Definition invoke (h : Handle) (method : string) (args : list Value)
  : Promise Value :=
  Fulfilled (VString method).

(** A network switch that records the new network and drops the signer. *)
Definition updateSignerOrProvider (network : Network) (w : ContractWrapper)
  : ContractWrapper :=
  {| abi := abi w; signerOrProvider := network; signer := None;
     readContract := readContract w |}.

(** ERC-1155 core selectors plus the Burnable selectors only. *)
Definition burnable_only : gset string := core ∪ selectors Burnable.

(** A contract with the BatchMintable selectors and without Mintable. *)
Definition batch_only : gset string := core ∪ selectors BatchMintable.

(** A drop: lazy minting with claim conditions, without the plain claim
    extension. *)
Definition drop : gset string :=
  core ∪ selectors LazyMintable ∪ selectors ClaimableWithConditions.

Definition everything : gset string :=
  core ∪ selectors Enumerable ∪ selectors Mintable ∪ selectors BatchMintable
  ∪ selectors Burnable ∪ selectors LazyMintable ∪ selectors Claimable
  ∪ selectors ClaimableWithConditions ∪ selectors SignatureMintable
  ∪ selectors Revealable.

(** The façade that the constructor builds over [burnable_only], and the
    store it leaves. *)
Definition burner : Erc1155 :=
  {| contractWrapper := 0%nat; storage := store; query := None;
     mintable := None;
     burnable := Some {| oid := 0; bound_to := 0 |};
     lazyMintable := None; signatureMintable := None |}.

Definition burner_heap : Heap :=
  {| wrappers := {[ 0%nat := wrapper burnable_only ]}; next_oid := 1 |}.

(** The façade that the constructor builds over [drop], and the store it
    leaves. *)
Definition dropper : Erc1155 :=
  {| contractWrapper := 0%nat; storage := store; query := None;
     mintable := None; burnable := None;
     lazyMintable :=
       Some {| lazyMintable_handle := {| oid := 0; bound_to := 0 |};
               lazy_claim := None;
               lazy_claimWithConditions :=
                 Some {| claimable_handle := {| oid := 1; bound_to := 0 |};
                         conditions := {| oid := 2; bound_to := 0 |} |};
               lazy_revealer := None |};
     signatureMintable := None |}.

Definition dropper_heap : Heap :=
  {| wrappers := {[ 0%nat := wrapper drop ]}; next_oid := 3 |}.



(** A façade on which no optional capability was found. *)
Definition bare : Erc1155 :=
  {| contractWrapper := 0%nat; storage := store; query := None;
     mintable := None; burnable := None; lazyMintable := None;
     signatureMintable := None |}.

End Sample.

(** ** Edition ledgers to run the walk on *)

Module SampleLedger.

Import NFTCollection.

(** One page: the seven usable bits of byte 0 set, then [0b11100000]. *)
Definition ten_editions : Accounts :=
  fun edition => if edition =? 0 then Some [127; 224; 0; 0] else None.

(** Page 0 full, three editions on page 1. *)
Definition two_pages : Accounts :=
  fun edition =>
    if edition =? 0 then Some (repeat 255 31)
    else if edition =? 248 then Some (224 :: repeat 0 30)
    else None.

End SampleLedger.

(** ** Async methods, by the promise they return *)

Module Async.

(** What an async body can fail with: the failures above, the
    [RangeError] of [Array(n)] for a length that is no array length, and
    [throw new Error(message)]. *)
Inductive Thrown : Type :=
| Known (e : Js.Error)
| RangeError
| PlainError (message : string).

(** The promise that a call of an async method returns, by how it settles;
    [x ← p; k] reads [const x = await p; k], and a [throw] in the body is
    the rejection of the promise. *)
Inductive Settled (A : Type) : Type :=
| Fulfilled (a : A)
| Rejected (t : Thrown).

Arguments Fulfilled {A} a.
Arguments Rejected {A} t.

Definition bind {A B} (p : Settled A) (k : A -> Settled B) : Settled B :=
  match p with
  | Fulfilled a => k a
  | Rejected t => Rejected t
  end.

(** [await p] for a promise of the earlier kind. *)
Definition of_promise {A} (p : Js.Promise A) : Settled A :=
  match p with
  | Js.Fulfilled a => Fulfilled a
  | Js.Rejected e => Rejected (Known e)
  end.

(** An expression that may throw, evaluated in the body. *)
Definition of_completion {A} (c : Js.Completion A) : Settled A :=
  match c with
  | Js.Normal a => Fulfilled a
  | Js.Throw e => Rejected (Known e)
  end.

(** [await f(..)] for a method [f] modelled as a completion. *)
Definition of_call {A} (c : Js.Completion (Js.Promise A)) : Settled A :=
  match c with
  | Js.Normal p => of_promise p
  | Js.Throw e => Rejected (Known e)
  end.

(** [Promise.all(ps)]: fulfilled with all the values in order, rejected
    when one of the promises is (here: with the first rejection in array
    order). *)
Fixpoint all {A} (ps : list (Settled A)) : Settled (list A) :=
  match ps with
  | [] => Fulfilled []
  | p :: ps' =>
      match p, all ps' with
      | Fulfilled a, Fulfilled l => Fulfilled (a :: l)
      | Rejected t, _ => Rejected t
      | Fulfilled _, Rejected t => Rejected t
      end
  end.

(** [Array.from(Array(n).keys())]: the numbers [0 .. n-1]; [Array(n)]
    throws a [RangeError] unless [0 <= n < 2^32]. *)
Definition Array_keys (n : Z) : Settled (list Z) :=
  if (0 <=? n) && (n <? 2 ^ 32)
  then Fulfilled (map Z.of_nat (seq 0 (Z.to_nat n)))
  else Rejected RangeError.

(** A [BigNumberish] argument, as far as the code tells its values apart:
    a JS number, which is falsy when it is 0, or a [BigNumber] object or
    non-empty decimal string, which is truthy whatever its value. *)
Inductive BigNumberish : Type :=
| Primitive (n : Z)
| Boxed (n : Z).

(** [value || fallback] for an optional [BigNumberish] and a number. *)
Definition or_number (value : option BigNumberish) (fallback : Z)
  : BigNumberish :=
  match value with
  | None => Primitive fallback
  | Some (Primitive n) => if n =? 0 then Primitive fallback else Primitive n
  | Some (Boxed n) => Boxed n
  end.

(** [BigNumber.from(value)] of ethers 5: a number is taken when it lies
    strictly within the safe range, anything beyond faults. *)
Definition BigNumber_from (value : BigNumberish) : Settled Z :=
  match value with
  | Primitive n =>
      if Z.abs n <? 2 ^ 53 - 1 then Fulfilled n
      else Rejected (Known Js.NumericFault)
  | Boxed n => Fulfilled n
  end.

(** [b.toNumber()] in an async body. *)
Definition toNumber (b : Z) : Settled Z := of_completion (Evm.toNumber b).

End Async.

#[global] Instance settled_ret : MRet Async.Settled :=
  fun _ a => Async.Fulfilled a.
#[global] Instance settled_bind : MBind Async.Settled :=
  fun _ _ k p => Async.bind p k.

(** ** EVM: [SignatureDrop] queries *)

Module SignatureDropQueries.

Import Async.

Record QueryAllParams : Type := {
  start : option BigNumberish;
  count : option BigNumberish
}.

(** [BigNumber.from(value || fallback).toNumber()] *)
Definition number_or (value : option BigNumberish) (fallback : Z)
  : Settled Z :=
  big ← BigNumber_from (or_number value fallback);
  toNumber big.

Section Queries.

(** The token type and the two methods of other classes that the queries
    call, [StandardErc721.get] and [Erc721.getTokenMetadata], with the
    constant [DEFAULT_QUERY_ALL_COUNT]: all missing from the sources and
    left open. *)
Context {NFT NFTMetadata : Type}.
Variable DEFAULT_QUERY_ALL_COUNT : Z.
Variable get : string -> Settled NFT.
Variable getTokenMetadata : string -> Settled NFTMetadata.

(** [start + count] and the comparison are on JS numbers; both operands
    are below 2^53, where a sum that is not exact is still beyond every
    value it is compared with, so the integers give the same minimum. *)
Definition getAllClaimed (readContract : SignatureDrop.ReadContract)
  (queryParams : option QueryAllParams) : Settled (list NFT) :=
  start ← number_or (queryParams ≫= start) 0;
  count ← number_or (queryParams ≫= count) DEFAULT_QUERY_ALL_COUNT;
  claimed ← of_call (SignatureDrop.totalClaimedSupply readContract);
  claimed_number ← toNumber claimed;
  let maxId := Z.min claimed_number (start + count) in
  keys ← Array_keys maxId;
  all (map (fun i => get (pretty i)) keys).

Definition getAllUnclaimed (readContract : SignatureDrop.ReadContract)
  (queryParams : option QueryAllParams) : Settled (list NFTMetadata) :=
  start ← number_or (queryParams ≫= start) 0;
  count ← number_or (queryParams ≫= count) DEFAULT_QUERY_ALL_COUNT;
  claimed ← of_call (SignatureDrop.totalClaimedSupply readContract);
  claimed_number ← toNumber claimed;
  firstTokenId ← BigNumber_from (Primitive (Z.max claimed_number start));
  next ← of_promise (SignatureDrop.nextTokenIdToMint readContract);
  next_number ← toNumber next;
  first_number ← toNumber firstTokenId;
  maxId ← BigNumber_from (Primitive (Z.min next_number (first_number + count)));
  length ← toNumber (maxId - firstTokenId);
  keys ← Array_keys length;
  all (map (fun i => getTokenMetadata (pretty (firstTokenId + i))) keys).

End Queries.

(** The token ids [first .. last - 1]. *)
Definition ids (first last : Z) : list Z :=
  map (fun i => first + Z.of_nat i) (seq 0 (Z.to_nat (last - first))).

End SignatureDropQueries.

(** ** Solana: [NFTCollection.getAllNFTAddresses] *)

Module NFTAddresses.

(** A compiled instruction and the message of a transaction, by the fields
    the method reads; public keys by their base58 strings. *)
Record Instruction : Type := {
  data : string;
  programIdIndex : nat;
  accounts : list nat
}.

Record Transaction : Type := {
  programIds : list string;       (* [message.programIds()] *)
  accountKeys : list string;
  instructions : list Instruction
}.

(** An account as [getMultipleAccounts] returns it, with the mint that
    [Metadata.deserialize] reads from its data. *)
Record Account : Type := {
  exists_ : bool;
  mint : string
}.

Definition batchSize : nat := 1000.

(** [allSignatures.slice(i, j)] *)
Definition slice {A} (l : list A) (i j : nat) : list A :=
  take (j - i) (drop i l).

(** [mintAddresses.add(x)] on a [Set], kept in insertion order. *)
Definition set_add (x : string) (s : list string) : list string :=
  if bool_decide (x ∈ s) then s else s ++ [x].

Section Node.

(** The program id constant and the three requests to the node: the
    signatures for the collection address before a given signature (most
    recent first), the transactions of a list of signatures, and the
    accounts at a list of addresses. *)
Variable METAPLEX_PROGRAM_ID : string.
Variable getSignaturesForAddress : option string -> list string.
Variable getTransactions : list string -> list (option Transaction).
Variable getMultipleAccounts : list (option string) -> list Account.

(** The [do .. while (signatures.length > 0)] loop, one unit of fuel per
    request. *)
Fixpoint more_signatures (fuel : nat) (signatures allSignatures : list string)
  : option (list string) :=
  match fuel with
  | O => None
  | S fuel' =>
      let options := last signatures in
      let signatures' := getSignaturesForAddress options in
      let allSignatures' := allSignatures ++ signatures' in
      if (0 <? length signatures')%nat
      then more_signatures fuel' signatures' allSignatures'
      else Some allSignatures'
  end.

Definition collect_signatures (fuel : nat) : option (list string) :=
  let signatures := getSignaturesForAddress None in
  more_signatures fuel signatures signatures.

(** The batches of the [for (let i = 0; i < length; i += batchSize)]
    loop; it runs at most [length] times. *)
Fixpoint batch_loop (rounds i : nat) (allSignatures : list string)
  : list (list string) :=
  match rounds with
  | O => []
  | S rounds' =>
      if (i <? length allSignatures)%nat
      then slice allSignatures i
             (Nat.min (length allSignatures) (i + batchSize))
           :: batch_loop rounds' (i + batchSize) allSignatures
      else []
  end.

Definition batches (allSignatures : list string) : list (list string) :=
  batch_loop (length allSignatures) 0 allSignatures.

(** What one transaction adds to [metadataAddresses]; [None] stands for
    an [undefined] that the code pushes when the index is out of range. *)
Definition is_verify (ix : Instruction) : bool :=
  bool_decide (data ix = "K") || bool_decide (data ix = "S")
  || bool_decide (data ix = "X").

Definition extract (tx : option Transaction) : list (option string) :=
  match tx with
  | None => []
  | Some tx =>
      if bool_decide (METAPLEX_PROGRAM_ID ∈ programIds tx)
      then
        flat_map
          (fun ix =>
             if is_verify ix
                && bool_decide (accountKeys tx !! programIdIndex ix
                                = Some METAPLEX_PROGRAM_ID)
             then [head (accounts ix) ≫= (fun i => accountKeys tx !! i)]
             else [])
          (instructions tx)
      else []
  end.

Definition metadataAddresses (allSignatures : list string)
  : list (option string) :=
  flat_map (fun batch => flat_map extract (getTransactions batch))
    (batches allSignatures).

(** The last loop: the mints of the accounts that exist, each once. *)
Definition mintAddresses (metadataAccounts : list Account) : list string :=
  fold_left
    (fun s account => if exists_ account then set_add (mint account) s else s)
    metadataAccounts [].

Definition getAllNFTAddresses (fuel : nat) : option (list string) :=
  allSignatures ← collect_signatures fuel;
  Some (mintAddresses (getMultipleAccounts (metadataAddresses allSignatures))).

End Node.

(** A node that serves a history of signatures, most recent first, in
    pages of at most [limit]. *)
Definition after (before : string) (history : list string) : list string :=
  match list_find (fun s => s = before) history with
  | Some (n, _) => drop (S n) history
  | None => []
  end.

Definition paged (history : list string) (limit : nat)
  (before : option string) : list string :=
  match before with
  | None => take limit history
  | Some s => take limit (after s history)
  end.

End NFTAddresses.

(** ** A node to run the address collection on *)

Module SampleNode.

Import NFTAddresses.

Definition metaplex : string := "metaqbxxUerdq28cj1RbAWkYQm3ybzjb6a8bt518x1s".

(** Five signatures, most recent first, served two at a time. *)
Definition history : list string := ["s5"; "s4"; "s3"; "s2"; "s1"].

Definition node : option string -> list string := paged history 2.

(** A transaction that verifies a collection item, and one of another
    program. *)
Definition verify_tx : Transaction :=
  {| programIds := [metaplex];
     accountKeys := ["payer"; "metadata1"; metaplex];
     instructions :=
       [ {| data := "K"; programIdIndex := 2; accounts := [1%nat; 0%nat] |} ] |}.

Definition other_tx : Transaction :=
  {| programIds := ["system"];
     accountKeys := ["payer"; "system"];
     instructions :=
       [ {| data := "K"; programIdIndex := 1; accounts := [0%nat] |} ] |}.

Definition tx_of (signature : string) : option Transaction :=
  if bool_decide (signature = "s4") then Some verify_tx
  else if bool_decide (signature = "s2") then Some other_tx
  else if bool_decide (signature = "s1") then Some verify_tx
  else None.

Definition transactions (signatures : list string) : list (option Transaction) :=
  map tx_of signatures.

End SampleNode.

(** ** A drop and façades to run the queries and wallet methods on *)

Module SampleDrop.

Import Async SignatureDropQueries.

(** Three tokens claimed out of five lazy-minted. *)
Definition reads : SignatureDrop.ReadContract :=
  {| SignatureDrop.totalMinted := Js.Fulfilled 3;
     SignatureDrop.nextTokenIdToMint := Js.Fulfilled 5 |}.

(** Both reads fail, each for a reason of its own. *)
Definition failing : SignatureDrop.ReadContract :=
  {| SignatureDrop.totalMinted := Js.Rejected (Js.CallException "minted");
     SignatureDrop.nextTokenIdToMint := Js.Rejected (Js.CallException "next") |}.

Definition get (tokenId : string) : Settled string :=
  Fulfilled ("nft " +:+ tokenId).

Definition getTokenMetadata (tokenId : string) : Settled string :=
  Fulfilled ("metadata " +:+ tokenId).

Definition from (start count : Z) : option QueryAllParams :=
  Some {| start := Some (Primitive start); count := Some (Primitive count) |}.

End SampleDrop.

Module SampleFacades.

Import Js Probe Evm Erc1155.

(** The façade that the constructor builds over a contract with the
    Mintable and BatchMintable selectors, and the store it leaves. *)
Definition minting : gset string :=
  Sample.core ∪ Sample.selectors Mintable ∪ Sample.selectors BatchMintable.

Definition minter : Erc1155 :=
  {| contractWrapper := 0%nat; storage := Sample.store; query := None;
     mintable :=
       Some {| mintable_handle := {| oid := 0; bound_to := 0 |};
               mintable_batch := Some {| oid := 1; bound_to := 0 |} |};
     burnable := None; lazyMintable := None; signatureMintable := None |}.

Definition minter_heap : Heap :=
  {| wrappers := {[ 0%nat := Sample.wrapper minting ]}; next_oid := 2 |}.

(** The same contract with no signer connected. *)
Definition unsigned_heap : Heap :=
  {| wrappers :=
       {[ 0%nat :=
            {| abi := minting; signerOrProvider := "mainnet";
               signer := None; readContract := Sample.reads |} ]};
     next_oid := 2 |}.

(** A contract that answers [uri] with the empty string. *)
Definition no_uri_heap : Heap :=
  {| wrappers :=
       {[ 0%nat :=
            {| abi := Sample.burnable_only; signerOrProvider := "mainnet";
               signer := None;
               readContract :=
                 {| Evm.totalSupply := Some (fun _ => Fulfilled 5);
                    Evm.uri := Some (fun _ => Fulfilled "") |} |} ]};
     next_oid := 1 |}.




End SampleFacades.

(** ** Sample edition markers with a page missing *)

Module SampleMarkers.

Import NFTCollection.

(** No edition was ever printed: no edition-marker account exists. *)
Definition no_editions : Accounts := fun _ => None.

(** 247 editions were printed: page 0 is full and page 1 was never
    created. *)
Definition full_page : Accounts :=
  fun edition => if edition =? 0 then Some (repeat 255 31) else None.

End SampleMarkers.

(** * Properties *)

(** ** Edition supply *)

Section EditionSupply.

Import NFTCollection.

Lemma land_pow2_testbit (b j : Z) :
  0 <= j -> negb (Z.land b (2 ^ j) =? 0) = Z.testbit b j.
Proof.
  intros Hj.
  destruct (Z.testbit b j) eqn:Hb.
  - apply negb_true_iff, Z.eqb_neq. intros Hz.
    assert (Z.testbit (Z.land b (2 ^ j)) j = true) as Hbit.
    { rewrite Z.land_spec, Hb, Z.pow2_bits_true by lia. reflexivity. }
    rewrite Hz, Z.bits_0 in Hbit. discriminate.
  - apply negb_false_iff, Z.eqb_eq, Z.bits_inj'. intros n Hn.
    rewrite Z.land_spec, Z.bits_0, Z.pow2_bits_eqb by lia.
    destruct (Z.eqb_spec j n) as [->|_].
    + rewrite Hb. reflexivity.
    + apply andb_false_r.
Qed.

Lemma indices_elem (n : nat) (i : Z) :
  0 <= i < Z.of_nat n -> In i (indices n).
Proof.
  intros Hi. unfold indices. apply in_map_iff.
  exists (Z.to_nat i). split; [lia|]. apply in_seq. lia.
Qed.

Lemma mask_ok_first_page : forallb (mask_ok 0) (indices 247) = true.
Proof. vm_compute. reflexivity. Qed.

Lemma mask_ok_next_page : forallb (mask_ok 1) (indices 248) = true.
Proof. vm_compute. reflexivity. Qed.

Lemma mask_ok_later (n i : Z) : 0 < n -> mask_ok n i = mask_ok 1 i.
Proof.
  intros Hn.
  unfold mask_ok, ledgerIndex, bitmask, shiftBase, size, position, ledgerIndex.
  replace (n >? 0) with true by (symmetry; apply Z.gtb_lt; lia).
  replace (n =? 0) with false by (symmetry; apply Z.eqb_neq; lia).
  reflexivity.
Qed.

Lemma mask_ok_all (n i : Z) :
  0 <= n -> 0 <= i < indexCap n -> mask_ok n i = true.
Proof.
  intros Hn Hi. unfold indexCap in Hi.
  destruct (Z.eqb_spec n 0) as [->|Hne].
  - pose proof mask_ok_first_page as H.
    rewrite forallb_forall in H. apply H, indices_elem. lia.
  - rewrite mask_ok_later by lia.
    pose proof mask_ok_next_page as H.
    rewrite forallb_forall in H. apply H, indices_elem. lia.
Qed.

(** The bit that [supplyOf] tests at an edition index is the bit of the
    ledger at that index's position. *)
Lemma editionExists_ledger_bit (n : Z) (ledger : Ledger) (i : Z) :
  0 <= n -> 0 <= i < indexCap n ->
  editionExists n ledger i = ledger_bit ledger (position n i).
Proof.
  intros Hn Hi. pose proof (mask_ok_all n i Hn Hi) as Hok.
  unfold mask_ok in Hok.
  apply andb_prop in Hok as [Hli Hmask].
  apply Z.eqb_eq in Hli, Hmask.
  unfold editionExists, ledger_bit. rewrite Hli, Hmask.
  apply land_pow2_testbit.
  pose proof (Z.mod_pos_bound (position n i) 8). lia.
Qed.

(** *** The inner loop *)

(** What one pass over a page does: it counts the [m] leading set bits
    from [i] on, and leaves early exactly when bit [i + m] is unset. *)
Lemma scan_page_spec (n : nat) (p : Z) (ledger : Ledger) (i t : Z) :
  exists m : nat,
    (forall j : nat, (j < m)%nat ->
       editionExists p ledger (i + Z.of_nat j) = true) /\
    ((m = n /\ scan_page n p ledger i t = (t + Z.of_nat n, false)) \/
     ((m < n)%nat /\ editionExists p ledger (i + Z.of_nat m) = false /\
      scan_page n p ledger i t = (t + Z.of_nat m, true))).
Proof.
  revert i t. induction n as [|n IH]; intros i t.
  - exists 0%nat. split; [lia|]. left. split; [reflexivity|].
    simpl. f_equal. lia.
  - simpl. destruct (editionExists p ledger i) eqn:Hi.
    + destruct (IH (i + 1) (t + 1)) as (m & Hset & Hend).
      exists (S m). split.
      * intros [|j] Hj.
        -- replace (i + Z.of_nat 0) with i by lia. exact Hi.
        -- replace (i + Z.of_nat (S j)) with (i + 1 + Z.of_nat j) by lia.
           apply Hset. lia.
      * destruct Hend as [[-> Hscan]|(Hlt & Hgap & Hscan)].
        -- left. split; [reflexivity|]. rewrite Hscan. f_equal. lia.
        -- right. split; [lia|]. split.
           ++ replace (i + Z.of_nat (S m)) with (i + 1 + Z.of_nat m) by lia.
              exact Hgap.
           ++ rewrite Hscan. f_equal. lia.
    + exists 0%nat. split; [lia|]. right. split; [lia|]. split.
      * replace (i + Z.of_nat 0) with i by lia. exact Hi.
      * f_equal. lia.
Qed.

(** *** Walking order *)

Lemma page_start_next (p : Z) :
  0 <= p -> page_start (p + 1) = page_start p + indexCap p.
Proof.
  intros Hp. unfold page_start, indexCap.
  destruct (Z.eqb_spec p 0) as [->|Hne]; [reflexivity|].
  destruct (Z.leb_spec (p + 1) 0), (Z.leb_spec p 0); lia.
Qed.

Lemma page_start_mono (p q : Z) :
  0 <= p -> p < q -> page_start p + indexCap p <= page_start q.
Proof.
  intros Hp Hq. unfold page_start, indexCap.
  destruct (Z.eqb_spec p 0), (Z.leb_spec p 0), (Z.leb_spec q 0); lia.
Qed.

Lemma walk_locate (p i : Z) :
  0 <= p -> 0 <= i < indexCap p ->
  page_of (page_start p + i) = p /\ index_of (page_start p + i) = i.
Proof.
  intros Hp Hi.
  assert (page_of (page_start p + i) = p) as Hpage.
  { revert Hi. unfold page_of, page_start, indexCap.
    destruct (Z.eqb_spec p 0) as [->|Hne]; intros Hi.
    - rewrite Z.add_0_l. destruct (Z.ltb_spec i 247); lia.
    - destruct (Z.leb_spec p 0); [lia|].
      destruct (Z.ltb_spec (247 + 248 * (p - 1) + i) 247); [lia|].
      replace (247 + 248 * (p - 1) + i - 247) with (i + (p - 1) * 248) by lia.
      rewrite Z.div_add by lia. rewrite Z.div_small by lia. lia. }
  split; [exact Hpage|]. unfold index_of. rewrite Hpage. lia.
Qed.

Lemma walk_split (k : Z) :
  0 <= k ->
  0 <= page_of k /\ 0 <= index_of k < indexCap (page_of k) /\
  k = page_start (page_of k) + index_of k.
Proof.
  intros Hk. unfold index_of, page_of, page_start, indexCap.
  destruct (Z.ltb_spec k 247) as [Hlt|Hge].
  - simpl. lia.
  - pose proof (Z.div_pos (k - 247) 248 ltac:(lia) ltac:(lia)) as Hq.
    pose proof (Z.div_mod (k - 247) 248 ltac:(lia)) as Hdm.
    pose proof (Z.mod_pos_bound (k - 247) 248 ltac:(lia)) as Hm.
    destruct (Z.eqb_spec ((k - 247) / 248 + 1) 0); [lia|].
    destruct (Z.leb_spec ((k - 247) / 248 + 1) 0); lia.
Qed.

Lemma walk_bit_at (accounts : Accounts) (p i : Z) :
  0 <= p -> 0 <= i < indexCap p ->
  walk_bit accounts (page_start p + i) =
  match accounts (p * 248) with
  | Some ledger => Some (editionExists p ledger i)
  | None => None
  end.
Proof.
  intros Hp Hi. unfold walk_bit.
  destruct (walk_locate p i Hp Hi) as [-> ->]. reflexivity.
Qed.

Lemma page_start_nonneg (p : Z) : 0 <= p -> 0 <= page_start p.
Proof. intros Hp. unfold page_start. destruct (Z.leb_spec p 0); lia. Qed.

Lemma indexCap_pos (p : Z) : 0 < indexCap p.
Proof. unfold indexCap. destruct (p =? 0); lia. Qed.

(** *** The outer loop *)

(** A page before the page of the first gap is scanned to its end. *)
Lemma scan_full_page (accounts : Accounts) (k p t : Z) :
  first_gap accounts k -> 0 <= p < page_of k ->
  exists ledger,
    accounts (p * 248) = Some ledger /\
    scan_page (Z.to_nat (indexCap p)) p ledger 0 t = (t + indexCap p, false).
Proof.
  intros (Hk & _ & Hset) Hp.
  destruct (walk_split k Hk) as (_ & Hidx & Hsplit).
  pose proof (page_start_mono p (page_of k) ltac:(lia) ltac:(lia)) as Hmono.
  pose proof (page_start_nonneg p ltac:(lia)) as Hstart.
  pose proof (indexCap_pos p) as Hcap.
  assert (forall i, 0 <= i < indexCap p ->
            match accounts (p * 248) with
            | Some ledger => Some (editionExists p ledger i)
            | None => None
            end = Some true) as Hbits.
  { intros i Hi. rewrite <- walk_bit_at by lia. apply Hset. lia. }
  destruct (accounts (p * 248)) as [ledger|] eqn:Hacc.
  2: { specialize (Hbits 0 ltac:(lia)). discriminate. }
  exists ledger. split; [reflexivity|].
  destruct (scan_page_spec (Z.to_nat (indexCap p)) p ledger 0 t)
    as (m & _ & [[_ Hscan]|(Hlt & Hgap & _)]).
  - rewrite Hscan. f_equal. lia.
  - specialize (Hbits (Z.of_nat m) ltac:(lia)).
    rewrite Z.add_0_l in Hgap. congruence.
Qed.

(** The page of the first gap is left at the gap. *)
Lemma scan_gap_page (accounts : Accounts) (k t : Z) :
  first_gap accounts k ->
  exists ledger,
    accounts (page_of k * 248) = Some ledger /\
    scan_page (Z.to_nat (indexCap (page_of k))) (page_of k) ledger 0 t
    = (t + index_of k, true).
Proof.
  intros (Hk & Hgap & Hset).
  destruct (walk_split k Hk) as (Hp & Hidx & Hsplit).
  pose proof (page_start_nonneg (page_of k) Hp) as Hstart.
  assert (forall i, 0 <= i < index_of k ->
            match accounts (page_of k * 248) with
            | Some ledger => Some (editionExists (page_of k) ledger i)
            | None => None
            end = Some true) as Hbits.
  { intros i Hi. rewrite <- walk_bit_at by lia. apply Hset. lia. }
  unfold walk_bit in Hgap.
  destruct (accounts (page_of k * 248)) as [ledger|] eqn:Hacc; [|discriminate].
  exists ledger. split; [reflexivity|].
  destruct (scan_page_spec (Z.to_nat (indexCap (page_of k))) (page_of k) ledger 0 t)
    as (m & Hm & [[-> _]|(Hlt & Hgap' & Hscan)]).
  - specialize (Hm (Z.to_nat (index_of k)) ltac:(lia)).
    rewrite Z.add_0_l, Z2Nat.id in Hm by lia. congruence.
  - rewrite Z.add_0_l in Hgap'.
    destruct (Z.lt_trichotomy (Z.of_nat m) (index_of k)) as [Hlow|[Heq|Hhigh]].
    + specialize (Hbits (Z.of_nat m) ltac:(lia)). congruence.
    + rewrite Hscan, Heq. reflexivity.
    + specialize (Hm (Z.to_nat (index_of k)) ltac:(lia)).
      rewrite Z.add_0_l, Z2Nat.id in Hm by lia. congruence.
Qed.

(** With a first gap at [k], the walk from page [p] returns [1 + k] once
    the fuel covers the pages up to the page of [k]. *)
Lemma supplyOf_loop_reaches_gap (accounts : Accounts) (k : Z) :
  first_gap accounts k ->
  forall (fuel : nat) (p : Z),
    0 <= p <= page_of k -> (Z.to_nat (page_of k - p) < fuel)%nat ->
    supplyOf_loop fuel accounts p (1 + page_start p) = Return (1 + k).
Proof.
  intros Hfirst. induction fuel as [|fuel IH]; intros p Hp Hfuel; [lia|].
  pose proof Hfirst as (Hk & _ & _).
  destruct (walk_split k Hk) as (_ & _ & Hsplit).
  simpl. destruct (Z.eq_dec p (page_of k)) as [->|Hne].
  - destruct (scan_gap_page accounts k (1 + page_start (page_of k)) Hfirst)
      as (ledger & -> & ->).
    f_equal. lia.
  - destruct (scan_full_page accounts k p (1 + page_start p) Hfirst ltac:(lia))
      as (ledger & -> & ->).
    replace (1 + page_start p + indexCap p) with (1 + page_start (p + 1))
      by (rewrite page_start_next by lia; lia).
    apply IH; lia.
Qed.

(** Short of that fuel the walk is still on its way. *)
Lemma supplyOf_loop_needs_fuel (accounts : Accounts) (k : Z) :
  first_gap accounts k ->
  forall (fuel : nat) (p : Z),
    0 <= p <= page_of k -> (fuel <= Z.to_nat (page_of k - p))%nat ->
    supplyOf_loop fuel accounts p (1 + page_start p) = Running.
Proof.
  intros Hfirst. induction fuel as [|fuel IH]; intros p Hp Hfuel;
    [reflexivity|].
  simpl.
  destruct (scan_full_page accounts k p (1 + page_start p) Hfirst ltac:(lia))
    as (ledger & -> & ->).
  replace (1 + page_start p + indexCap p) with (1 + page_start (p + 1))
    by (rewrite page_start_next by lia; lia).
  apply IH; lia.
Qed.

(** A bit that is not set, or whose page is missing, ends the walk by the
    time its page has been visited. *)
Lemma supplyOf_loop_terminates (accounts : Accounts) (k0 : Z) :
  0 <= k0 -> walk_bit accounts k0 <> Some true ->
  forall (fuel : nat) (p t : Z),
    0 <= p <= page_of k0 -> (Z.to_nat (page_of k0 - p) < fuel)%nat ->
    supplyOf_loop fuel accounts p t <> Running.
Proof.
  intros Hk0 Hbit. induction fuel as [|fuel IH]; intros p t Hp Hfuel; [lia|].
  destruct (walk_split k0 Hk0) as (_ & Hidx & Hsplit).
  simpl. destruct (accounts (p * 248)) as [ledger|] eqn:Hacc; [|discriminate].
  destruct (scan_page_spec (Z.to_nat (indexCap p)) p ledger 0 t)
    as (m & Hm & [[-> Hscan]|(_ & _ & Hscan)]); rewrite Hscan;
    [|discriminate].
  destruct (Z.eq_dec p (page_of k0)) as [->|Hne].
  - exfalso. apply Hbit. unfold walk_bit. rewrite Hacc. f_equal.
    specialize (Hm (Z.to_nat (index_of k0)) ltac:(lia)).
    rewrite Z.add_0_l, Z2Nat.id in Hm by lia. exact Hm.
  - apply IH; lia.
Qed.

(** A value that the walk returns is one more than the first gap. *)
Lemma supplyOf_loop_sound (accounts : Accounts) :
  forall (fuel : nat) (p v : Z),
    0 <= p ->
    (forall j, 0 <= j < page_start p -> walk_bit accounts j = Some true) ->
    supplyOf_loop fuel accounts p (1 + page_start p) = Return v ->
    first_gap accounts (v - 1).
Proof.
  induction fuel as [|fuel IH]; intros p v Hp Hbefore Hret; [discriminate|].
  pose proof (page_start_nonneg p Hp) as Hstart.
  simpl in Hret.
  destruct (accounts (p * 248)) as [ledger|] eqn:Hacc; [|discriminate].
  assert (forall i, 0 <= i < indexCap p ->
            walk_bit accounts (page_start p + i)
            = Some (editionExists p ledger i)) as Hat.
  { intros i Hi. rewrite walk_bit_at, Hacc by lia. reflexivity. }
  destruct (scan_page_spec (Z.to_nat (indexCap p)) p ledger 0 (1 + page_start p))
    as (m & Hm & [[-> Hscan]|(Hlt & Hgap & Hscan)]); rewrite Hscan in Hret.
  - replace (1 + page_start p + Z.of_nat (Z.to_nat (indexCap p)))
      with (1 + page_start (p + 1)) in Hret
      by (rewrite page_start_next by lia; pose proof (indexCap_pos p); lia).
    apply (IH (p + 1) v); [lia| |exact Hret].
    intros j Hj. rewrite page_start_next in Hj by lia.
    destruct (Z.lt_ge_cases j (page_start p)) as [Hlow|Hhigh].
    + apply Hbefore. lia.
    + replace j with (page_start p + (j - page_start p)) by lia.
      rewrite Hat by lia. f_equal.
      specialize (Hm (Z.to_nat (j - page_start p)) ltac:(lia)).
      rewrite Z.add_0_l, Z2Nat.id in Hm by lia. exact Hm.
  - injection Hret as <-. rewrite Z.add_0_l in Hgap.
    replace (1 + page_start p + Z.of_nat m - 1)
      with (page_start p + Z.of_nat m) by lia.
    split; [lia|]. split.
    + rewrite Hat by lia. f_equal. exact Hgap.
    + intros j Hj. destruct (Z.lt_ge_cases j (page_start p)) as [Hlow|Hhigh].
      * apply Hbefore. lia.
      * replace j with (page_start p + (j - page_start p)) by lia.
        rewrite Hat by lia. f_equal.
        specialize (Hm (Z.to_nat (j - page_start p)) ltac:(lia)).
        rewrite Z.add_0_l, Z2Nat.id in Hm by lia. exact Hm.
Qed.

(** When the pages up to an unset bit exist, the walk returns. *)
Lemma supplyOf_loop_returns (accounts : Accounts) (k0 : Z) :
  0 <= k0 -> walk_bit accounts k0 = Some false ->
  pages_exist accounts (page_of k0) ->
  forall (fuel : nat) (p t : Z),
    0 <= p <= page_of k0 -> (Z.to_nat (page_of k0 - p) < fuel)%nat ->
    exists v, supplyOf_loop fuel accounts p t = Return v.
Proof.
  intros Hk0 Hbit Hpages.
  induction fuel as [|fuel IH]; intros p t Hp Hfuel; [lia|].
  destruct (walk_split k0 Hk0) as (_ & Hidx & _).
  simpl. destruct (Hpages p Hp) as [ledger Hacc]. rewrite Hacc.
  destruct (scan_page_spec (Z.to_nat (indexCap p)) p ledger 0 t)
    as (m & Hm & [[-> Hscan]|(_ & _ & Hscan)]); rewrite Hscan; [|eauto].
  destruct (Z.eq_dec p (page_of k0)) as [->|Hne].
  - exfalso. unfold walk_bit in Hbit. rewrite Hacc in Hbit.
    specialize (Hm (Z.to_nat (index_of k0)) ltac:(lia)).
    rewrite Z.add_0_l, Z2Nat.id in Hm by lia. congruence.
  - apply IH; lia.
Qed.

(** A first gap found by running the walk's test over the bits before it. *)
Lemma first_gap_by_enumeration (accounts : Accounts) (k : nat) :
  forallb (fun j => bool_decide (walk_bit accounts j = Some true)) (indices k)
  = true ->
  walk_bit accounts (Z.of_nat k) = Some false ->
  first_gap accounts (Z.of_nat k).
Proof.
  intros Hall Hgap. split; [lia|]. split; [exact Hgap|].
  intros j Hj. rewrite forallb_forall in Hall.
  specialize (Hall j (indices_elem k j Hj)).
  apply bool_decide_eq_true in Hall. exact Hall.
Qed.

Lemma testbit_low7 (b n : Z) :
  Z.land b 127 = 127 -> 0 <= n < 7 -> Z.testbit b n = true.
Proof.
  intros Hland Hn.
  assert (Z.testbit 127 n = true) as H127.
  { change 127 with (Z.ones 7). apply Z.ones_spec_low. lia. }
  pose proof (Z.land_spec b 127 n) as Hspec.
  rewrite Hland, H127, andb_true_r in Hspec. congruence.
Qed.

(** The bits of the first two bytes of page 0. *)
Lemma first_byte_bit (b0 : Z) (rest : Ledger) (j : Z) :
  0 <= j < 7 -> editionExists 0 (b0 :: rest) j = Z.testbit b0 (6 - j).
Proof.
  intros Hj. rewrite editionExists_ledger_bit by (unfold indexCap; simpl; lia).
  unfold ledger_bit, position, ledger_at. simpl (0 =? 0).
  cbv iota. rewrite Z.div_small, Z.mod_small by lia.
  simpl. f_equal. lia.
Qed.

Lemma second_byte_bit (b0 b1 : Z) (rest : Ledger) (j : Z) :
  7 <= j < 15 -> editionExists 0 (b0 :: b1 :: rest) j = Z.testbit b1 (14 - j).
Proof.
  intros Hj. rewrite editionExists_ledger_bit by (unfold indexCap; simpl; lia).
  unfold ledger_bit, position, ledger_at. simpl (0 =? 0). cbv iota.
  replace ((j + 1) / 8) with 1
    by (apply (Z.div_unique (j + 1) 8 1 (j - 7)); lia).
  replace ((j + 1) mod 8) with (j - 7)
    by (apply (Z.mod_unique (j + 1) 8 1 (j - 7)); lia).
  simpl. f_equal. lia.
Qed.

(** C1. [supplyOf] returns 1 (the original) plus the number of set bits
    that the walk over the edition-marker pages meets before the first
    unset bit: when [k] is the position, in walking order, of the first
    unset bit, the result is [1 + k] as soon as the fuel covers the pages
    walked.  In particular, for a first page whose byte 0 has its seven
    usable bits set and whose next byte is [0b11100000], the supply is 11. *)
Theorem supplyOf_counts_leading_editions :
  (forall (accounts : Accounts) (k : Z) (fuel : nat),
     first_gap accounts k -> (Z.to_nat (page_of k) < fuel)%nat ->
     supplyOf fuel accounts = Return (1 + k)) /\
  (forall (accounts : Accounts) (b0 : Z) (rest : Ledger) (fuel : nat),
     Z.land b0 127 = 127 -> accounts 0 = Some (b0 :: 224 :: rest) ->
     (0 < fuel)%nat ->
     supplyOf fuel accounts = Return 11).
Proof.
  assert (forall accounts k fuel,
            first_gap accounts k -> (Z.to_nat (page_of k) < fuel)%nat ->
            supplyOf fuel accounts = Return (1 + k)) as Hgeneral.
  { intros accounts k fuel Hfirst Hfuel.
    pose proof Hfirst as (Hk & _).
    destruct (walk_split k Hk) as (Hp & _).
    apply (supplyOf_loop_reaches_gap accounts k Hfirst fuel 0); lia. }
  split; [exact Hgeneral|].
  intros accounts b0 rest fuel Hb0 Hacc Hfuel.
  apply (Hgeneral accounts 10 fuel); [|exact Hfuel].
  assert (forall j, 0 <= j < 15 ->
            walk_bit accounts j
            = Some (editionExists 0 (b0 :: 224 :: rest) j)) as Hat.
  { intros j Hj. change j with (page_start 0 + j) at 1.
    rewrite walk_bit_at by (unfold indexCap; simpl; lia).
    change (0 * 248) with 0. rewrite Hacc. reflexivity. }
  split; [lia|]. split.
  - rewrite Hat by lia. rewrite second_byte_bit by lia. reflexivity.
  - intros j Hj. rewrite Hat by lia. f_equal.
    destruct (Z.lt_ge_cases j 7) as [Hlow|Hhigh].
    + rewrite first_byte_bit by lia. apply testbit_low7; [exact Hb0|lia].
    + rewrite second_byte_bit by lia.
      assert (j = 7 \/ j = 8 \/ j = 9) as [->|[->| ->]] by lia; reflexivity.
Qed.

Lemma supplyOf_counts_leading_editions_witness :
  supplyOf 2 SampleLedger.two_pages = Return 251 /\
  supplyOf 1 SampleLedger.ten_editions = Return 11.
Proof.
  split.
  - apply (proj1 supplyOf_counts_leading_editions SampleLedger.two_pages 250 2%nat).
    + apply (first_gap_by_enumeration SampleLedger.two_pages 250);
        vm_compute; reflexivity.
    + vm_compute. lia.
  - apply (proj2 supplyOf_counts_leading_editions
             SampleLedger.ten_editions 127 [0; 0] 1%nat).
    + reflexivity.
    + reflexivity.
    + lia.
Defined.

(** C2. The first edition-marker page exposes 247 usable bits and every
    later page 248: index [i] of page 0 is position [i + 1] of the page's
    bit field, the first position being taken by a flag.  The walk ends at
    the first unset bit and not after a fixed number of rounds: for a
    ledger with an unset bit on an existing page, with the pages before it
    in place, the walk returns, and what it returns counts exactly the set
    bits before the first unset one; any bit that is unset or whose page
    is missing ends the walk by the time its page is visited; and the walk
    needs one round per page up to the page of the first unset bit, being
    still under way with fewer. *)
Theorem supplyOf_stops_at_first_gap :
  indexCap 0 = 247 /\
  (forall n, 0 < n -> indexCap n = 248) /\
  (forall (n : Z) (ledger : Ledger) (i : Z),
     0 <= n -> 0 <= i < indexCap n ->
     editionExists n ledger i = ledger_bit ledger (position n i)) /\
  (forall (accounts : Accounts) (k0 : Z) (fuel : nat),
     0 <= k0 -> walk_bit accounts k0 = Some false ->
     pages_exist accounts (page_of k0) ->
     (Z.to_nat (page_of k0) < fuel)%nat ->
     exists v, supplyOf fuel accounts = Return v /\
               first_gap accounts (v - 1) /\ v - 1 <= k0) /\
  (forall (accounts : Accounts) (k0 : Z) (fuel : nat),
     0 <= k0 -> walk_bit accounts k0 <> Some true ->
     (Z.to_nat (page_of k0) < fuel)%nat ->
     supplyOf fuel accounts <> Running) /\
  (forall (accounts : Accounts) (k : Z) (fuel : nat),
     first_gap accounts k -> (fuel <= Z.to_nat (page_of k))%nat ->
     supplyOf fuel accounts = Running).
Proof.
  split; [reflexivity|]. split.
  { intros n Hn. unfold indexCap.
    destruct (Z.eqb_spec n 0); [lia|reflexivity]. }
  split; [exact editionExists_ledger_bit|]. split; [|split].
  2: { intros accounts k0 fuel Hk0 Hbit Hfuel.
       destruct (walk_split k0 Hk0) as (Hp & _).
       apply (supplyOf_loop_terminates accounts k0 Hk0 Hbit fuel 0 1); lia. }
  - intros accounts k0 fuel Hk0 Hbit Hpages Hfuel.
    destruct (walk_split k0 Hk0) as (Hp & _).
    destruct (supplyOf_loop_returns accounts k0 Hk0 Hbit Hpages fuel 0 1)
      as [v Hv]; [lia|lia|].
    exists v. split; [exact Hv|].
    assert (first_gap accounts (v - 1)) as Hfirst.
    { apply (supplyOf_loop_sound accounts fuel 0 v); [lia| |exact Hv].
      intros j Hj. change (page_start 0) with 0 in Hj. lia. }
    split; [exact Hfirst|].
    destruct Hfirst as (_ & _ & Hset).
    destruct (Z.le_gt_cases (v - 1) k0) as [Hle|Hgt]; [exact Hle|].
    specialize (Hset k0 ltac:(lia)). congruence.
  - intros accounts k fuel Hfirst Hfuel.
    pose proof Hfirst as (Hk & _).
    destruct (walk_split k Hk) as (Hp & _).
    apply (supplyOf_loop_needs_fuel accounts k Hfirst fuel 0); lia.
Qed.

Lemma supplyOf_stops_at_first_gap_witness :
  indexCap 1 = 248 /\
  editionExists 0 [127; 224] 9 = ledger_bit [127; 224] 10 /\
  (exists v, supplyOf 2 SampleLedger.two_pages = Return v /\
             first_gap SampleLedger.two_pages (v - 1) /\ v - 1 <= 252) /\
  supplyOf 1 SampleLedger.two_pages = Running.
Proof.
  pose proof supplyOf_stops_at_first_gap
    as (_ & Hcap & Hbit & Hstop & _ & Hrun).
  split; [apply Hcap; lia|]. split.
  { apply (Hbit 0 [127; 224] 9); [lia|vm_compute; split; discriminate || reflexivity]. }
  split.
  - apply (Hstop SampleLedger.two_pages 252 2%nat).
    + lia.
    + reflexivity.
    + intros p Hp. change (page_of 252) with 1 in Hp.
      assert (p = 0 \/ p = 1) as [->| ->] by lia; vm_compute; eauto.
    + vm_compute. lia.
  - apply (Hrun SampleLedger.two_pages 250 1%nat).
    + apply (first_gap_by_enumeration SampleLedger.two_pages 250);
        vm_compute; reflexivity.
    + vm_compute. lia.
Defined.

End EditionSupply.

(** ** Façade construction *)

Section Construction.

Import Js Probe Evm Erc1155.

Variable requirementsFor : Registry.

Lemma grows_refl (heap : Heap) : grows heap heap.
Proof. split; [reflexivity|lia]. Qed.

Lemma grows_trans (h1 h2 h3 : Heap) : grows h1 h2 -> grows h2 h3 -> grows h1 h3.
Proof. intros [Hw1 Hn1] [Hw2 Hn2]. split; [congruence|lia]. Qed.

Lemma new_handle_ok (cw : nat) (heap : Heap) :
  exists h heap',
    new_handle cw heap = Normal (h, heap') /\ grows heap heap' /\
    bound_to h = cw.
Proof.
  eexists _, _. split; [reflexivity|]. split; [|reflexivity].
  split; [reflexivity|simpl; lia].
Qed.

Lemma deref_ok (cw : nat) (heap : Heap) (w : ContractWrapper) :
  wrappers heap !! cw = Some w -> deref cw heap = Normal (w, heap).
Proof. intros H. unfold deref. rewrite H. reflexivity. Qed.

Lemma detect_ok (cw : nat) (featureName : string) (heap : Heap)
  (w : ContractWrapper) :
  wrappers heap !! cw = Some w ->
  exists o heap',
    detect requirementsFor cw featureName heap = Normal (o, heap') /\
    grows heap heap' /\
    defined o = detectContractFeature requirementsFor (abi w) featureName /\
    Forall (fun h => bound_to h = cw) (option_list o).
Proof.
  intros Hw. unfold detect, mbind, store_bind, Evm.bind.
  rewrite (deref_ok cw heap w Hw).
  destruct (detectContractFeature requirementsFor (abi w) featureName).
  - destruct (new_handle_ok cw heap) as (h & heap' & -> & Hg & Hb).
    eexists _, _. split; [reflexivity|]. split; [exact Hg|].
    split; [reflexivity|]. repeat constructor. exact Hb.
  - eexists _, _. split; [reflexivity|]. split; [apply grows_refl|].
    split; [reflexivity|constructor].
Qed.

Lemma grows_lookup (heap heap' : Heap) (cw : nat) (w : ContractWrapper) :
  grows heap heap' -> wrappers heap !! cw = Some w ->
  wrappers heap' !! cw = Some w.
Proof. intros [Hw _] H. rewrite Hw. exact H. Qed.

Lemma new_Erc1155Mintable_ok (cw : nat) (heap : Heap) (w : ContractWrapper) :
  wrappers heap !! cw = Some w ->
  exists m heap',
    new_Erc1155Mintable requirementsFor cw heap = Normal (m, heap') /\
    grows heap heap' /\
    defined (mintable_batch m)
    = detectContractFeature requirementsFor (abi w) "ERC1155BatchMintable" /\
    Forall (fun h => bound_to h = cw) (handles_of_mintable m).
Proof.
  intros Hw. unfold new_Erc1155Mintable, mbind, store_bind, Evm.bind.
  destruct (new_handle_ok cw heap) as (h & heap1 & -> & Hg1 & Hh).
  destruct (detect_ok cw "ERC1155BatchMintable" heap1 w
              (grows_lookup _ _ _ _ Hg1 Hw))
    as (b & heap2 & -> & Hg2 & Hb & Hbb).
  eexists _, _. split; [reflexivity|].
  split; [exact (grows_trans _ _ _ Hg1 Hg2)|]. split; [exact Hb|].
  constructor; assumption.
Qed.

Lemma detectErc1155Mintable_ok (cw : nat) (heap : Heap) (w : ContractWrapper) :
  wrappers heap !! cw = Some w ->
  exists o heap',
    detectErc1155Mintable requirementsFor cw heap = Normal (o, heap') /\
    grows heap heap' /\
    defined o = detected requirementsFor (abi w) Mintable /\
    defined (o ≫= mintable_batch)
    = detected requirementsFor (abi w) BatchMintable /\
    Forall (fun h => bound_to h = cw) (from_option handles_of_mintable [] o).
Proof.
  intros Hw. unfold detectErc1155Mintable, mbind, store_bind, Evm.bind, detected.
  rewrite (deref_ok cw heap w Hw).
  destruct (detectContractFeature requirementsFor (abi w) "ERC1155Mintable").
  - destruct (new_Erc1155Mintable_ok cw heap w Hw)
      as (m & heap' & -> & Hg & Hb & Hbound).
    eexists _, _. split; [reflexivity|]. split; [exact Hg|].
    split; [reflexivity|]. split; [exact Hb|exact Hbound].
  - eexists _, _. split; [reflexivity|]. split; [apply grows_refl|].
    split; [reflexivity|]. split; [reflexivity|constructor].
Qed.

Lemma new_Erc1155LazyMintable_ok (cw : nat) (heap : Heap)
  (w : ContractWrapper) :
  wrappers heap !! cw = Some w ->
  exists l heap',
    new_Erc1155LazyMintable requirementsFor cw heap = Normal (l, heap') /\
    grows heap heap' /\
    defined (lazy_claim l)
    = detectContractFeature requirementsFor (abi w) "ERC1155Claimable" /\
    defined (lazy_claimWithConditions l)
    = detectContractFeature requirementsFor (abi w)
        "ERC1155ClaimableWithConditions" /\
    defined (lazy_revealer l)
    = detectContractFeature requirementsFor (abi w) "ERC1155Revealable" /\
    Forall (fun h => bound_to h = cw) (handles_of_lazyMintable l).
Proof.
  intros Hw. unfold new_Erc1155LazyMintable, mbind, store_bind, Evm.bind.
  destruct (new_handle_ok cw heap) as (h & heap1 & -> & Hg1 & Hh).
  pose proof (grows_lookup _ _ _ _ Hg1 Hw) as Hw1.
  destruct (detect_ok cw "ERC1155Claimable" heap1 w Hw1)
    as (c & heap2 & -> & Hg2 & Hc & Hcb).
  pose proof (grows_lookup _ _ _ _ Hg2 Hw1) as Hw2.
  rewrite (deref_ok cw heap2 w Hw2).
  destruct (detectContractFeature requirementsFor (abi w)
              "ERC1155ClaimableWithConditions") eqn:Hcwc.
  - destruct (new_handle_ok cw heap2) as (h3 & heap3 & -> & Hg3 & Hh3).
    destruct (new_handle_ok cw heap3) as (h4 & heap4 & -> & Hg4 & Hh4).
    unfold mret, store_ret, Evm.ret.
    pose proof (grows_trans _ _ _ Hg3 Hg4) as Hg34.
    pose proof (grows_lookup _ _ _ _ Hg34 Hw2) as Hw4.
    destruct (detect_ok cw "ERC1155Revealable" heap4 w Hw4)
      as (r & heap5 & -> & Hg5 & Hr & Hrb).
    eexists _, _. split; [reflexivity|]. split.
    { eapply grows_trans; [exact Hg1|]. eapply grows_trans; [exact Hg2|].
      eapply grows_trans; [exact Hg34|exact Hg5]. }
    split; [exact Hc|]. split; [reflexivity|]. split; [exact Hr|].
    unfold handles_of_lazyMintable. simpl.
    constructor; [exact Hh|]. apply Forall_app. split; [exact Hcb|].
    constructor; [exact Hh3|]. constructor; [exact Hh4|exact Hrb].
  - unfold mret, store_ret, Evm.ret.
    destruct (detect_ok cw "ERC1155Revealable" heap2 w Hw2)
      as (r & heap5 & -> & Hg5 & Hr & Hrb).
    eexists _, _. split; [reflexivity|]. split.
    { eapply grows_trans; [exact Hg1|]. eapply grows_trans; [exact Hg2|exact Hg5]. }
    split; [exact Hc|]. split; [reflexivity|]. split; [exact Hr|].
    unfold handles_of_lazyMintable. simpl.
    constructor; [exact Hh|]. apply Forall_app. split; [exact Hcb|exact Hrb].
Qed.

Lemma detectErc1155LazyMintable_ok (cw : nat) (heap : Heap)
  (w : ContractWrapper) :
  wrappers heap !! cw = Some w ->
  exists o heap',
    detectErc1155LazyMintable requirementsFor cw heap = Normal (o, heap') /\
    grows heap heap' /\
    defined o = detected requirementsFor (abi w) LazyMintable /\
    defined (o ≫= lazy_claim) = detected requirementsFor (abi w) Claimable /\
    defined (o ≫= lazy_claimWithConditions)
    = detected requirementsFor (abi w) ClaimableWithConditions /\
    defined (o ≫= lazy_revealer) = detected requirementsFor (abi w) Revealable /\
    Forall (fun h => bound_to h = cw)
      (from_option handles_of_lazyMintable [] o).
Proof.
  intros Hw.
  unfold detectErc1155LazyMintable, mbind, store_bind, Evm.bind, detected.
  rewrite (deref_ok cw heap w Hw).
  destruct (detectContractFeature requirementsFor (abi w) "ERC1155LazyMintable").
  - destruct (new_Erc1155LazyMintable_ok cw heap w Hw)
      as (l & heap' & -> & Hg & Hc & Hcwc & Hr & Hbound).
    eexists _, _. split; [reflexivity|]. split; [exact Hg|].
    split; [reflexivity|]. split; [exact Hc|]. split; [exact Hcwc|].
    split; [exact Hr|exact Hbound].
  - eexists _, _. split; [reflexivity|]. split; [apply grows_refl|].
    repeat split; try reflexivity. constructor.
Qed.

(** The constructor completes, leaves the wrappers alone, and fills each
    field according to the probe. *)
Lemma new_Erc1155_ok (cw : nat) (storage : ThirdwebStorage) (heap : Heap)
  (w : ContractWrapper) :
  wrappers heap !! cw = Some w ->
  exists e heap',
    new_Erc1155 requirementsFor cw storage heap = Normal (e, heap') /\
    grows heap heap' /\
    contractWrapper e = cw /\
    (forall c, present e c = detected requirementsFor (abi w) c) /\
    Forall (fun h => bound_to h = cw) (handles e).
Proof.
  intros Hw. unfold new_Erc1155, mbind, store_bind, Evm.bind.
  unfold detectErc1155Enumerable, detectErc1155Burnable,
    detectErc1155SignatureMintable.
  destruct (detect_ok cw "ERC1155Enumerable" heap w Hw)
    as (q & heap1 & -> & Hg1 & Hq & Hqb).
  pose proof (grows_lookup _ _ _ _ Hg1 Hw) as Hw1.
  destruct (detectErc1155Mintable_ok cw heap1 w Hw1)
    as (m & heap2 & -> & Hg2 & Hm & Hmb & Hmbound).
  pose proof (grows_lookup _ _ _ _ Hg2 Hw1) as Hw2.
  destruct (detect_ok cw "ERC1155Burnable" heap2 w Hw2)
    as (b & heap3 & -> & Hg3 & Hb & Hbb).
  pose proof (grows_lookup _ _ _ _ Hg3 Hw2) as Hw3.
  destruct (detectErc1155LazyMintable_ok cw heap3 w Hw3)
    as (l & heap4 & -> & Hg4 & Hl & Hlc & Hlcwc & Hlr & Hlbound).
  pose proof (grows_lookup _ _ _ _ Hg4 Hw3) as Hw4.
  destruct (detect_ok cw "ERC1155SignatureMintable" heap4 w Hw4)
    as (sg & heap5 & -> & Hg5 & Hsg & Hsgb).
  eexists _, _. split; [reflexivity|]. split.
  { eapply grows_trans; [exact Hg1|]. eapply grows_trans; [exact Hg2|].
    eapply grows_trans; [exact Hg3|]. eapply grows_trans; [exact Hg4|exact Hg5]. }
  split; [reflexivity|]. split.
  - intros []; simpl; assumption.
  - unfold handles. simpl. repeat (apply Forall_app; split); assumption.
Qed.

End Construction.

(** ** The probe *)

Section ProbeFacts.

Import Js Probe Evm Erc1155.

Variable requirementsFor : Registry.

Lemma featureByName_name (f : Feature) :
  In f EDITION_FEATURES -> featureByName (name f) = Some f.
Proof.
  unfold EDITION_FEATURES. simpl.
  intros [<-|[<-|[<-|[<-|[<-|[<-|[<-|[<-|[<-|[]]]]]]]]]]; reflexivity.
Qed.

Lemma edition_family (f : Feature) :
  In f EDITION_FEATURES -> family f = ERC1155.
Proof.
  unfold EDITION_FEATURES. simpl.
  intros [<-|[<-|[<-|[<-|[<-|[<-|[<-|[<-|[<-|[]]]]]]]]]]; reflexivity.
Qed.

Lemma probe_full (abi : gset string) (f : Feature) :
  In f EDITION_FEATURES ->
  required (requirementsFor (family f) (capability f)) ⊆ abi ->
  detectContractFeature requirementsFor abi (name f) = true.
Proof.
  intros Hf Hsub. unfold detectContractFeature.
  rewrite (featureByName_name f Hf). apply bool_decide_eq_true.
  unfold supports. rewrite decide_True by exact Hsub. reflexivity.
Qed.

Lemma probe_incomplete (abi : gset string) (f : Feature) :
  In f EDITION_FEATURES ->
  ~ required (requirementsFor (family f) (capability f)) ⊆ abi ->
  detectContractFeature requirementsFor abi (name f) = false.
Proof.
  intros Hf Hsub. unfold detectContractFeature.
  rewrite (featureByName_name f Hf). apply bool_decide_eq_false.
  unfold supports. rewrite decide_False by exact Hsub.
  destruct (decide _); discriminate.
Qed.





Lemma guard_edition (a : Accessor) : In (guard a) EDITION_FEATURES.
Proof. destruct a; simpl; tauto. Qed.

End ProbeFacts.

(** ** Guarded accessors *)

Section Accessors.

Import Js Probe Evm Erc1155.

Variable invoke : Handle -> string -> list Value -> Promise Value.

Lemma defined_false {A} (o : option A) : defined o = false -> o = None.
Proof. destruct o; [discriminate|reflexivity]. Qed.

(** An accessor none of whose capabilities is there: a getter throws, a
    method returns a rejected promise; either way with the feature it
    names. *)
Lemma absent_run (heap : Heap) (e : Erc1155) (a : Accessor) :
  (forall c, In c (serves a) -> present e c = false) ->
  run invoke heap e a
  = if is_async a
    then Normal (AsPromise (Rejected (ExtensionNotImplementedError (guard a))))
    else Throw (ExtensionNotImplementedError (guard a)).
Proof.
  intros Habsent.
  destruct a;
    try (pose proof (Habsent _ (or_introl eq_refl)) as H;
         simpl in H; apply defined_false in H; simpl;
         unfold getAll, totalCount, totalCirculatingSupply, getOwned, mintTo,
           mintAdditionalSupply, mintAdditionalSupplyTo, mintBatchTo, burn,
           burnFrom, burnBatch, burnBatchFrom, lazyMint, claimConditions,
           signature, revealer;
         rewrite H; reflexivity).
  all: pose proof (Habsent ClaimableWithConditions (or_introl eq_refl)) as H1;
    pose proof (Habsent Claimable (or_intror (or_introl eq_refl))) as H2;
    simpl in H1, H2; apply defined_false in H1, H2; simpl;
    unfold getClaimTransaction, claimTo; rewrite H1, H2; reflexivity.
Qed.

Lemma absent_fails (heap : Heap) (e : Erc1155) (a : Accessor) :
  (forall c, In c (serves a) -> present e c = false) ->
  fails_with (run invoke heap e a) (ExtensionNotImplementedError (guard a)).
Proof.
  intros Habsent. rewrite (absent_run heap e a Habsent).
  destruct (is_async a); [right|left]; reflexivity.
Qed.





End Accessors.

(** ** The façade: absent capabilities *)

Section FacadeClaims.

Import Js Probe Evm Erc1155.




(** C4. BatchMintable is a composite capability.  For a contract whose
    descriptor contains the BatchMintable selectors but not those of
    Mintable, the mintable handle is absent, and with it the batch handle,
    which is only reached through it: [mintBatchTo] fails with
    [ExtensionNotImplementedError] for the BatchMintable feature. *)
Theorem batch_requires_mintable (requirementsFor : Registry)
  (invoke : Handle -> string -> list Value -> Promise Value)
  (heap : Heap) (cw : nat) (storage : ThirdwebStorage) (w : ContractWrapper) :
  wrappers heap !! cw = Some w ->
  required (requirementsFor ERC1155 BatchMintable) ⊆ abi w ->
  ~ required (requirementsFor ERC1155 Mintable) ⊆ abi w ->
  exists e heap',
    new_Erc1155 requirementsFor cw storage heap = Normal (e, heap') /\
    detectContractFeature requirementsFor (abi w) "ERC1155BatchMintable"
    = true /\
    mintable e = None /\
    present e BatchMintable = false /\
    (forall (receiver : Address) (metadataWithSupply : list string),
       mintBatchTo invoke e receiver metadataWithSupply
       = Normal (Rejected (ExtensionNotImplementedError
                             {| name := "ERC1155BatchMintable";
                                family := ERC1155;
                                capability := BatchMintable |}))) /\
    (forall e' : Erc1155, mintable e' = None ->
       mintable e' ≫= mintable_batch = None).
Proof.
  intros Hw Hbatch Hmint.
  destruct (new_Erc1155_ok requirementsFor cw storage heap w Hw)
    as (e & heap' & Hnew & _ & _ & Hpresent & _).
  exists e, heap'. split; [exact Hnew|]. split.
  { apply (probe_full requirementsFor (abi w) FEATURE_EDITION_BATCH_MINTABLE);
      [simpl; tauto|exact Hbatch]. }
  assert (present e Mintable = false) as Hm.
  { rewrite Hpresent.
    apply (probe_incomplete requirementsFor (abi w) FEATURE_EDITION_MINTABLE);
      [simpl; tauto|exact Hmint]. }
  simpl in Hm. apply defined_false in Hm.
  split; [exact Hm|]. split; [simpl; rewrite Hm; reflexivity|]. split.
  - intros receiver metadataWithSupply.
    unfold mintBatchTo. rewrite Hm. reflexivity.
  - intros e' ->. reflexivity.
Qed.

Lemma batch_requires_mintable_witness :
  exists e heap',
    new_Erc1155 Sample.registry 0 Sample.store
      (Sample.heap_of (Sample.wrapper Sample.batch_only))
    = Normal (e, heap') /\
    mintable e = None /\
    mintBatchTo Sample.invoke e "0xreceiver" ["ipfs://a"; "ipfs://b"]
    = Normal (Rejected
                (ExtensionNotImplementedError FEATURE_EDITION_BATCH_MINTABLE)).
Proof.
  destruct (batch_requires_mintable Sample.registry Sample.invoke
              (Sample.heap_of (Sample.wrapper Sample.batch_only)) 0
              Sample.store (Sample.wrapper Sample.batch_only) eq_refl)
    as (e & heap' & Hnew & _ & Hm & _ & Hbatch & _).
  { apply (bool_decide_unpack _). vm_compute. exact I. }
  { intros Hsub. apply (bool_decide_pack _) in Hsub. vm_compute in Hsub.
    exact Hsub. }
  exists e, heap'. split; [exact Hnew|]. split; [exact Hm|]. apply Hbatch.
Defined.

(** C5. Constructing the façade does not throw on account of a missing
    capability: for every descriptor the constructor completes, each
    [detect*] helper returns a handle or [undefined] as the probe decides,
    every field of the façade is present exactly when the probe found its
    capability, and the failure for an absent one arises where it is
    used. *)
Theorem construction_never_throws (requirementsFor : Registry)
  (invoke : Handle -> string -> list Value -> Promise Value)
  (heap : Heap) (cw : nat) (storage : ThirdwebStorage) (w : ContractWrapper) :
  wrappers heap !! cw = Some w ->
  (exists o h, detectErc1155Enumerable requirementsFor cw heap = Normal (o, h) /\
     defined o = detected requirementsFor (abi w) Enumerable) /\
  (exists o h, detectErc1155Mintable requirementsFor cw heap = Normal (o, h) /\
     defined o = detected requirementsFor (abi w) Mintable) /\
  (exists o h, detectErc1155Burnable requirementsFor cw heap = Normal (o, h) /\
     defined o = detected requirementsFor (abi w) Burnable) /\
  (exists o h, detectErc1155LazyMintable requirementsFor cw heap = Normal (o, h) /\
     defined o = detected requirementsFor (abi w) LazyMintable) /\
  (exists o h,
     detectErc1155SignatureMintable requirementsFor cw heap = Normal (o, h) /\
     defined o = detected requirementsFor (abi w) SignatureMintable) /\
  exists e heap',
    new_Erc1155 requirementsFor cw storage heap = Normal (e, heap') /\
    (forall c, present e c = detected requirementsFor (abi w) c) /\
    (forall a, (forall c, In c (serves a) -> present e c = false) ->
       fails_with (run invoke heap' e a)
         (ExtensionNotImplementedError (guard a))).
Proof.
  intros Hw.
  split.
  { destruct (detect_ok requirementsFor cw "ERC1155Enumerable" heap w Hw)
      as (o & h & Hrun & _ & Hd & _). exists o, h. split; assumption. }
  split.
  { destruct (detectErc1155Mintable_ok requirementsFor cw heap w Hw)
      as (o & h & Hrun & _ & Hd & _). exists o, h. split; assumption. }
  split.
  { destruct (detect_ok requirementsFor cw "ERC1155Burnable" heap w Hw)
      as (o & h & Hrun & _ & Hd & _). exists o, h. split; assumption. }
  split.
  { destruct (detectErc1155LazyMintable_ok requirementsFor cw heap w Hw)
      as (o & h & Hrun & _ & Hd & _). exists o, h. split; assumption. }
  split.
  { destruct (detect_ok requirementsFor cw "ERC1155SignatureMintable" heap w Hw)
      as (o & h & Hrun & _ & Hd & _). exists o, h. split; assumption. }
  destruct (new_Erc1155_ok requirementsFor cw storage heap w Hw)
    as (e & heap' & Hnew & _ & _ & Hpresent & _).
  exists e, heap'. split; [exact Hnew|]. split; [exact Hpresent|].
  intros a. apply absent_fails.
Qed.

Lemma construction_never_throws_witness :
  exists e heap',
    new_Erc1155 Sample.registry 0 Sample.store
      (Sample.heap_of (Sample.wrapper Sample.core))
    = Normal (e, heap') /\
    (forall c, present e c = false) /\
    fails_with (run Sample.invoke heap' e Signature)
      (ExtensionNotImplementedError FEATURE_EDITION_SIGNATURE_MINTABLE).
Proof.
  destruct (construction_never_throws Sample.registry Sample.invoke
              (Sample.heap_of (Sample.wrapper Sample.core)) 0
              Sample.store (Sample.wrapper Sample.core) eq_refl)
    as (_ & _ & _ & _ & _ & e & heap' & Hnew & Hpresent & Huse).
  exists e, heap'. split; [exact Hnew|].
  assert (forall c, present e c = false) as Hnone.
  { intros c. rewrite Hpresent. destruct c; vm_compute; reflexivity. }
  split; [exact Hnone|]. apply (Huse Signature). intros c _. apply Hnone.
Defined.

(** C6, as the specification states it: the failure of an accessor of an
    absent capability is always thrown synchronously at the call site.
    The methods of the façade are [async]; [mintTo] on a façade without
    the mintable handle completes normally and hands back a promise. *)
Lemma async_accessor_does_not_throw :
  ~ (forall (invoke : Handle -> string -> list Value -> Promise Value)
       (heap : Heap) (e : Erc1155) (a : Accessor),
       present e (capability (guard a)) = false ->
       run invoke heap e a = Throw (ExtensionNotImplementedError (guard a))).
Proof.
  intros Hsync.
  specialize (Hsync Sample.invoke (Sample.heap_of (Sample.wrapper Sample.core))
                Sample.bare (MintTo "0xreceiver" VUndefined) eq_refl).
  discriminate Hsync.
Qed.

(** C6, amended.  When none of the capabilities that an accessor serves
    is there, the getters [claimConditions], [signature] and [revealer]
    throw [ExtensionNotImplementedError] at the call site; every method,
    being [async], completes normally and returns a promise that is
    rejected with that error. *)
Theorem absent_failure_thrown_or_rejected
  (invoke : Handle -> string -> list Value -> Promise Value)
  (heap : Heap) (e : Erc1155) (a : Accessor) :
  (forall c, In c (serves a) -> present e c = false) ->
  (is_async a = false <->
   a = ClaimConditions \/ a = Signature \/ a = Revealer) /\
  (is_async a = false ->
   run invoke heap e a = Throw (ExtensionNotImplementedError (guard a))) /\
  (is_async a = true ->
   run invoke heap e a
   = Normal (AsPromise (Rejected (ExtensionNotImplementedError (guard a))))).
Proof.
  intros Habsent. split.
  { split.
    - destruct a; simpl; intros H; try discriminate H; tauto.
    - intros [->|[->| ->]]; reflexivity. }
  pose proof (absent_run invoke heap e a Habsent) as Hrun.
  split.
  - intros Hsync. rewrite Hsync in Hrun. exact Hrun.
  - intros Hasync. rewrite Hasync in Hrun. exact Hrun.
Qed.

Lemma absent_failure_thrown_or_rejected_witness :
  run Sample.invoke (Sample.heap_of (Sample.wrapper Sample.core)) Sample.bare
    Signature
  = Throw (ExtensionNotImplementedError FEATURE_EDITION_SIGNATURE_MINTABLE) /\
  run Sample.invoke (Sample.heap_of (Sample.wrapper Sample.core)) Sample.bare
    (ClaimTo "0xreceiver" 0 1 VUndefined)
  = Normal (AsPromise
              (Rejected (ExtensionNotImplementedError FEATURE_EDITION_CLAIMABLE))).
Proof.
  split.
  - apply (absent_failure_thrown_or_rejected Sample.invoke
             (Sample.heap_of (Sample.wrapper Sample.core)) Sample.bare
             Signature).
    + intros c _. destruct c; reflexivity.
    + reflexivity.
  - apply (absent_failure_thrown_or_rejected Sample.invoke
             (Sample.heap_of (Sample.wrapper Sample.core)) Sample.bare
             (ClaimTo "0xreceiver" 0 1 VUndefined)).
    + intros c _. destruct c; reflexivity.
    + reflexivity.
Defined.

(** C7, as the specification states it: after [onNetworkUpdated] the
    handles of the façade have been derived anew.  The method updates the
    shared wrapper and assigns no field: the handles are the ones the
    constructor made. *)
Lemma onNetworkUpdated_keeps_handles :
  ~ (forall (updateSignerOrProvider :
               Network -> ContractWrapper -> ContractWrapper)
       (e e' : Erc1155) (network : Network) (heap heap' : Heap),
       onNetworkUpdated updateSignerOrProvider e network heap
       = Normal (e', heap') ->
       rederived heap e').
Proof.
  intros Hrebuilt.
  specialize (Hrebuilt Sample.updateSignerOrProvider Sample.burner
                Sample.burner "goerli" Sample.burner_heap _ eq_refl
                {| oid := 0; bound_to := 0 |} (or_introl eq_refl)).
  simpl in Hrebuilt. lia.
Qed.

Example dropper_constructed :
  new_Erc1155 Sample.registry 0 Sample.store
    (Sample.heap_of (Sample.wrapper Sample.drop))
  = Normal (Sample.dropper, Sample.dropper_heap).
Proof. vm_compute. reflexivity. Qed.

Example burner_constructed :
  new_Erc1155 Sample.registry 0 Sample.store
    (Sample.heap_of (Sample.wrapper Sample.burnable_only))
  = Normal (Sample.burner, Sample.burner_heap).
Proof. vm_compute. reflexivity. Qed.

(** C7, amended.  [onNetworkUpdated] updates the contract wrapper in place
    and leaves the façade as it is: no handle is constructed, every field
    keeps the handle it had, and since the handles refer to that same
    wrapper they all see the update; as long as the update leaves the
    descriptor of the wrapper alone, presence still agrees with the probe. *)
Theorem onNetworkUpdated_in_place (requirementsFor : Registry)
  (updateSignerOrProvider : Network -> ContractWrapper -> ContractWrapper)
  (heap : Heap) (cw : nat) (storage : ThirdwebStorage) (w : ContractWrapper)
  (network : Network) :
  wrappers heap !! cw = Some w ->
  exists e heap1 heap2,
    new_Erc1155 requirementsFor cw storage heap = Normal (e, heap1) /\
    onNetworkUpdated updateSignerOrProvider e network heap1
    = Normal (e, heap2) /\
    next_oid heap2 = next_oid heap1 /\
    wrappers heap2 = <[cw := updateSignerOrProvider network w]> (wrappers heap1) /\
    Forall (fun h => wrappers heap2 !! bound_to h
                     = Some (updateSignerOrProvider network w)) (handles e) /\
    (abi (updateSignerOrProvider network w) = abi w ->
     forall c, present e c
               = detected requirementsFor
                   (abi (updateSignerOrProvider network w)) c).
Proof.
  intros Hw.
  destruct (new_Erc1155_ok requirementsFor cw storage heap w Hw)
    as (e & heap1 & Hnew & Hg & Hcw & Hpresent & Hbound).
  pose proof (grows_lookup _ _ _ _ Hg Hw) as Hw1.
  exists e, heap1. eexists. split; [exact Hnew|]. split.
  { unfold onNetworkUpdated, mbind, store_bind, Evm.bind.
    rewrite Hcw, (deref_ok cw heap1 w Hw1). reflexivity. }
  split; [reflexivity|]. split; [reflexivity|]. split.
  - eapply Forall_impl; [exact Hbound|].
    intros h ->. simpl. apply lookup_insert_eq.
  - intros Habi c. rewrite Habi. apply Hpresent.
Qed.

Lemma onNetworkUpdated_in_place_witness :
  exists e heap1 heap2,
    new_Erc1155 Sample.registry 0 Sample.store
      (Sample.heap_of (Sample.wrapper Sample.everything))
    = Normal (e, heap1) /\
    onNetworkUpdated Sample.updateSignerOrProvider e "goerli" heap1
    = Normal (e, heap2) /\
    next_oid heap2 = next_oid heap1 /\
    forall c, present e c = true.
Proof.
  destruct (onNetworkUpdated_in_place Sample.registry
              Sample.updateSignerOrProvider
              (Sample.heap_of (Sample.wrapper Sample.everything)) 0
              Sample.store (Sample.wrapper Sample.everything) "goerli" eq_refl)
    as (e & heap1 & heap2 & Hnew & Hupd & Hoid & _ & _ & Hpresent).
  exists e, heap1, heap2. split; [exact Hnew|]. split; [exact Hupd|].
  split; [exact Hoid|].
  intros c. rewrite (Hpresent eq_refl). destruct c; vm_compute; reflexivity.
Defined.

(** C8. Constructing the façade twice over the same descriptor gives
    façades that agree on the presence of every capability. *)
Theorem construction_idempotent (requirementsFor : Registry)
  (heap : Heap) (cw1 cw2 : nat) (storage1 storage2 : ThirdwebStorage)
  (w1 w2 : ContractWrapper) :
  wrappers heap !! cw1 = Some w1 ->
  wrappers heap !! cw2 = Some w2 ->
  abi w1 = abi w2 ->
  exists e1 heap1 e2 heap2,
    new_Erc1155 requirementsFor cw1 storage1 heap = Normal (e1, heap1) /\
    new_Erc1155 requirementsFor cw2 storage2 heap1 = Normal (e2, heap2) /\
    forall c, present e1 c = present e2 c.
Proof.
  intros Hw1 Hw2 Habi.
  destruct (new_Erc1155_ok requirementsFor cw1 storage1 heap w1 Hw1)
    as (e1 & heap1 & Hnew1 & Hg & _ & Hp1 & _).
  destruct (new_Erc1155_ok requirementsFor cw2 storage2 heap1 w2
              (grows_lookup _ _ _ _ Hg Hw2))
    as (e2 & heap2 & Hnew2 & _ & _ & Hp2 & _).
  exists e1, heap1, e2, heap2. split; [exact Hnew1|]. split; [exact Hnew2|].
  intros c. rewrite Hp1, Hp2, Habi. reflexivity.
Qed.

Lemma construction_idempotent_witness :
  exists e1 heap1 e2 heap2,
    new_Erc1155 Sample.registry 0 Sample.store
      (Sample.heap_of (Sample.wrapper Sample.burnable_only))
    = Normal (e1, heap1) /\
    new_Erc1155 Sample.registry 0 Sample.store heap1 = Normal (e2, heap2) /\
    forall c, present e1 c = present e2 c.
Proof.
  exact (construction_idempotent Sample.registry
           (Sample.heap_of (Sample.wrapper Sample.burnable_only)) 0 0
           Sample.store Sample.store
           (Sample.wrapper Sample.burnable_only)
           (Sample.wrapper Sample.burnable_only) eq_refl eq_refl eq_refl).
Defined.

End FacadeClaims.

(** ** Supply reads *)

Section SupplyReads.

Import Js Evm.

(** C9. For the SignatureDrop contract, [totalSupply()] is the sum of
    [totalClaimedSupply()] and [totalUnclaimedSupply()]; the latter being
    [nextTokenIdToMint()] minus the claimed supply, [totalSupply()] is the
    contract's [nextTokenIdToMint()], whatever the two values read are (so
    in particular when [totalMinted <= nextTokenIdToMint]). *)
Theorem totalSupply_is_nextTokenIdToMint (minted next : Z) :
  let readContract :=
    {| SignatureDrop.totalMinted := Fulfilled minted;
       SignatureDrop.nextTokenIdToMint := Fulfilled next |} in
  SignatureDrop.totalClaimedSupply readContract = Normal (Fulfilled minted) /\
  SignatureDrop.totalUnclaimedSupply readContract
  = Normal (Fulfilled (next - minted)) /\
  SignatureDrop.totalSupply readContract
  = Normal (Fulfilled (minted + (next - minted))) /\
  SignatureDrop.totalSupply readContract = Normal (Fulfilled next).
Proof.
  simpl. split; [reflexivity|]. split; [reflexivity|].
  split; [reflexivity|].
  unfold SignatureDrop.totalSupply, SignatureDrop.totalUnclaimedSupply,
    SignatureDrop.totalClaimedSupply.
  simpl. do 2 f_equal. lia.
Qed.




End SupplyReads.

(** ** Collecting the addresses of a collection *)

Section AddressCollection.

Import NFTAddresses.

Lemma page_last (history : list string) (limit n : nat) :
  let page := take limit (drop n history) in
  page ≠ [] ->
  exists s, last page = Some s /\
            history !! (n + length page - 1)%nat = Some s.
Proof.
  intros page Hne.
  assert (0 < length page)%nat as Hlen.
  { destruct page; [congruence|simpl; lia]. }
  rewrite last_lookup.
  destruct (page !! pred (length page)) as [s|] eqn:Hs.
  - exists s. split; [reflexivity|].
    unfold page in Hs at 1. apply lookup_take_Some in Hs as [Hs _].
    rewrite lookup_drop in Hs. rewrite <- Hs. f_equal.
    unfold page in *. lia.
  - apply lookup_ge_None in Hs. lia.
Qed.

(** The loop over the pages of a node that answers as the history
    dictates. *)
Lemma more_signatures_all (rpc : option string -> list string)
  (history : list string) (limit : nat) :
  (0 < limit)%nat ->
  (forall n s, history !! n = Some s ->
     rpc (Some s) = take limit (drop (S n) history)) ->
  forall (fuel n : nat) (signatures : list string),
    rpc (last signatures) = take limit (drop n history) ->
    (length history - n < fuel)%nat ->
    more_signatures rpc fuel signatures (take n history) = Some history.
Proof.
  intros Hlimit Hnext. induction fuel as [|fuel IH];
    intros n signatures Hreq Hfuel; [lia|].
  simpl. rewrite Hreq.
  destruct (le_lt_dec (length history) n) as [Hge|Hlt].
  - rewrite (drop_ge history n Hge), take_nil. simpl.
    rewrite app_nil_r, take_ge by lia. reflexivity.
  - set (page := take limit (drop n history)).
    assert (length page = Nat.min limit (length history - n)) as Hlen.
    { unfold page. rewrite length_take, length_drop. reflexivity. }
    assert (page ≠ []) as Hne.
    { intros Hnil. rewrite Hnil in Hlen. simpl in Hlen. lia. }
    replace (0 <? length page)%nat with true
      by (symmetry; apply Nat.ltb_lt; lia).
    destruct (page_last history limit n Hne) as (s & Hlast & Hs).
    fold page in Hs, Hlast.
    assert (take n history ++ page = take (n + length page) history) as Htake.
    { unfold page at 1. rewrite <- (take_drop n history) at 3.
      rewrite take_app_add'; [|rewrite length_take; lia].
      f_equal. rewrite Hlen.
      destruct (Nat.min_spec limit (length history - n)) as [[_ ->]|[? ->]];
        [reflexivity|].
      rewrite !take_ge by (rewrite length_drop; lia). reflexivity. }
    rewrite Htake. apply IH.
    + rewrite Hlast, (Hnext _ _ Hs). do 2 f_equal. lia.
    + lia.
Qed.

(** A node that pages through a duplicate-free history answers each
    request as the history dictates. *)
Lemma paged_serves (history : list string) (limit n : nat) (s : string) :
  NoDup history -> history !! n = Some s ->
  paged history limit (Some s) = take limit (drop (S n) history).
Proof.
  intros Hnodup Hs. unfold paged, after.
  assert (list_find (fun x => x = s) history = Some (n, s)) as ->.
  { apply list_find_Some. split; [exact Hs|]. split; [reflexivity|].
    intros j y Hy Hj ->.
    pose proof (NoDup_lookup history j n s Hnodup Hy Hs). lia. }
  reflexivity.
Qed.

(** X1. The request loop of [getAllNFTAddresses] gathers the whole history
    of the collection address, in order and each signature once, when the
    node serves it in pages going back from the signature given as
    [before]; it needs at most one request more than there are
    signatures. *)
Theorem collect_signatures_whole_history
  (getSignaturesForAddress : option string -> list string)
  (history : list string) (limit fuel : nat) :
  (0 < limit)%nat ->
  getSignaturesForAddress None = take limit history ->
  (forall n s, history !! n = Some s ->
     getSignaturesForAddress (Some s) = take limit (drop (S n) history)) ->
  (length history < fuel)%nat ->
  collect_signatures getSignaturesForAddress fuel = Some history.
Proof.
  intros Hlimit Hfirst Hnext Hfuel. unfold collect_signatures.
  rewrite Hfirst.
  set (page := take limit history).
  assert (page = take (length page) history) as Hpage.
  { unfold page. rewrite length_take.
    destruct (Nat.min_spec limit (length history)) as [[_ ->]|[? ->]];
      [reflexivity|].
    rewrite !take_ge by lia. reflexivity. }
  rewrite Hpage at 2.
  apply (more_signatures_all getSignaturesForAddress history limit
           Hlimit Hnext); [|lia].
  destruct page as [|s0 page'] eqn:Heq.
  - simpl. exact Hfirst.
  - destruct (page_last history limit 0) as (s & Hlast & Hs).
    { rewrite drop_0. fold page. rewrite Heq. discriminate. }
    rewrite drop_0 in Hlast, Hs. fold page in Hlast, Hs.
    rewrite Heq in Hlast, Hs.
    rewrite Hlast, (Hnext _ _ Hs). do 2 f_equal. simpl. lia.
Qed.

Lemma collect_signatures_whole_history_witness :
  collect_signatures SampleNode.node 6 = Some SampleNode.history.
Proof.
  apply (collect_signatures_whole_history SampleNode.node SampleNode.history
           2 6).
  - lia.
  - reflexivity.
  - intros n s Hs. apply paged_serves; [|exact Hs].
    apply (bool_decide_unpack _). vm_compute. exact I.
  - simpl. lia.
Defined.

Lemma batch_loop_drop (allSignatures : list string) :
  forall (rounds i : nat),
    (length allSignatures - i <= rounds)%nat ->
    concat (batch_loop rounds i allSignatures) = drop i allSignatures /\
    Forall (fun b => (0 < length b <= batchSize)%nat)
      (batch_loop rounds i allSignatures).
Proof.
  assert (0 < batchSize)%nat as Hsize by (unfold batchSize; lia).
  induction rounds as [|rounds IH]; intros i Hrounds.
  - cbn [batch_loop concat]. split; [|constructor].
    rewrite drop_ge by lia. reflexivity.
  - cbn [batch_loop].
    destruct (Nat.ltb_spec i (length allSignatures)) as [Hlt|Hge].
    + destruct (IH (i + batchSize)%nat ltac:(lia)) as [Hconcat Hall].
      cbn [concat]. rewrite Hconcat. unfold slice. split.
      * rewrite <- (take_drop batchSize (drop i allSignatures)) at 2.
        rewrite drop_drop. f_equal.
        destruct (Nat.min_spec (length allSignatures) (i + batchSize))
          as [[? ->]|[? ->]].
        -- rewrite !take_ge by (rewrite length_drop; lia). reflexivity.
        -- f_equal. lia.
      * constructor; [|exact Hall].
        rewrite length_take, length_drop. lia.
    + cbn [concat]. split; [|constructor].
      rewrite drop_ge by lia. reflexivity.
Qed.

(** X2. The batches in which [getAllNFTAddresses] asks for transactions
    cover the signatures exactly: put together they are the list of
    signatures, none is empty and none holds more than 1000.  With a node
    that answers each signature by its own transaction, the metadata
    addresses gathered are those of the signatures taken one by one,
    whatever the batching. *)
Theorem batches_cover (METAPLEX_PROGRAM_ID : string)
  (getTransactions : list string -> list (option Transaction))
  (allSignatures : list string) :
  concat (batches allSignatures) = allSignatures /\
  Forall (fun b => (0 < length b <= 1000)%nat) (batches allSignatures) /\
  forall tx_of : string -> option Transaction,
    (forall signatures, getTransactions signatures = map tx_of signatures) ->
    metadataAddresses METAPLEX_PROGRAM_ID getTransactions allSignatures
    = flat_map (fun s => extract METAPLEX_PROGRAM_ID (tx_of s)) allSignatures.
Proof.
  destruct (batch_loop_drop allSignatures (length allSignatures) 0 ltac:(lia))
    as [Hconcat Hall].
  fold (batches allSignatures) in Hconcat, Hall. rewrite drop_0 in Hconcat.
  split; [exact Hconcat|]. split; [exact Hall|].
  intros tx_of Hpoint. unfold metadataAddresses.
  rewrite <- Hconcat at 2. clear Hconcat Hall.
  induction (batches allSignatures) as [|batch rest IH]; [reflexivity|].
  simpl. rewrite IH, Hpoint, flat_map_app. f_equal.
  clear. induction batch as [|s batch IH]; [reflexivity|].
  simpl. rewrite IH. reflexivity.
Qed.

Lemma batches_cover_witness :
  metadataAddresses SampleNode.metaplex SampleNode.transactions
    SampleNode.history
  = [Some "metadata1"; Some "metadata1"].
Proof.
  destruct (batches_cover SampleNode.metaplex SampleNode.transactions
              SampleNode.history) as (_ & _ & Hpoint).
  rewrite (Hpoint SampleNode.tx_of); [|reflexivity].
  vm_compute. reflexivity.
Defined.

Lemma mintAddresses_fold (accounts : list Account) :
  forall s : list string,
    NoDup s ->
    let result :=
      fold_left
        (fun s account =>
           if exists_ account then set_add (mint account) s else s)
        accounts s in
    NoDup result /\
    forall x, x ∈ result <->
              x ∈ s \/
              exists a, a ∈ accounts /\ exists_ a = true /\ mint a = x.
Proof.
  induction accounts as [|a accounts IH]; intros s Hs; simpl.
  - split; [exact Hs|]. intros x. split; [tauto|].
    intros [H|(a & Ha & _)]; [exact H|]. inversion Ha.
  - set (s' := if exists_ a then set_add (mint a) s else s).
    assert (NoDup s' /\
            forall x, x ∈ s' <-> x ∈ s \/ (exists_ a = true /\ mint a = x))
      as [Hs' Hmem].
    { unfold s'. destruct (exists_ a).
      - unfold set_add. case_bool_decide as Hin.
        + split; [exact Hs|]. intros x. split; [tauto|].
          intros [H|[_ <-]]; assumption.
        + split.
          * apply NoDup_app. split; [exact Hs|]. split.
            -- intros x Hx Hx'. apply list_elem_of_singleton in Hx'.
               subst x. contradiction.
            -- apply NoDup_singleton.
          * intros x. rewrite elem_of_app, list_elem_of_singleton.
            split; [intros [H | ->]; auto|intros [H|[_ <-]]; auto].
      - split; [exact Hs|]. intros x. split; [tauto|].
        intros [H|[H _]]; [exact H|discriminate]. }
    destruct (IH s' Hs') as [Hnodup Hres]. split; [exact Hnodup|].
    intros x. rewrite Hres, Hmem. split.
    + intros [[H|[He Hm]]|(b & Hb & He & Hm)].
      * left. exact H.
      * right. exists a. split; [left|]. split; assumption.
      * right. exists b. split; [right; exact Hb|]. split; assumption.
    + intros [H|(b & Hb & He & Hm)].
      * left. left. exact H.
      * apply elem_of_cons in Hb as [-> | Hb].
        -- left. right. split; assumption.
        -- right. exists b. split; [exact Hb|]. split; assumption.
Qed.

(** X3. The addresses that [getAllNFTAddresses] returns are pairwise
    distinct, and they are exactly the mints of the metadata accounts that
    exist; an account that does not exist adds nothing. *)
Theorem mintAddresses_distinct (metadataAccounts : list Account) :
  NoDup (mintAddresses metadataAccounts) /\
  forall x, x ∈ mintAddresses metadataAccounts <->
            exists a, a ∈ metadataAccounts /\ exists_ a = true /\ mint a = x.
Proof.
  destruct (mintAddresses_fold metadataAccounts [] (NoDup_nil_2))
    as [Hnodup Hmem].
  split; [exact Hnodup|]. intros x. unfold mintAddresses.
  rewrite Hmem. split; [|tauto]. intros [H|H]; [inversion H|exact H].
Qed.

End AddressCollection.

(** ** The edition walk on a missing page *)

Section MissingMarker.

Import NFTCollection.

(** A page all of whose bits are set is scanned to its end. *)
Lemma scan_set_page (accounts : Accounts) (p q t : Z) :
  0 <= p < q ->
  (forall j, 0 <= j < page_start q -> walk_bit accounts j = Some true) ->
  exists ledger,
    accounts (p * 248) = Some ledger /\
    scan_page (Z.to_nat (indexCap p)) p ledger 0 t = (t + indexCap p, false).
Proof.
  intros Hp Hset.
  pose proof (page_start_mono p q ltac:(lia) ltac:(lia)) as Hmono.
  pose proof (page_start_nonneg p ltac:(lia)) as Hstart.
  pose proof (indexCap_pos p) as Hcap.
  assert (forall i, 0 <= i < indexCap p ->
            match accounts (p * 248) with
            | Some ledger => Some (editionExists p ledger i)
            | None => None
            end = Some true) as Hbits.
  { intros i Hi. rewrite <- walk_bit_at by lia. apply Hset. lia. }
  destruct (accounts (p * 248)) as [ledger|] eqn:Hacc.
  2: { specialize (Hbits 0 ltac:(lia)). discriminate. }
  exists ledger. split; [reflexivity|].
  destruct (scan_page_spec (Z.to_nat (indexCap p)) p ledger 0 t)
    as (m & _ & [[_ Hscan]|(Hlt & Hgap & _)]).
  - rewrite Hscan. f_equal. lia.
  - specialize (Hbits (Z.of_nat m) ltac:(lia)).
    rewrite Z.add_0_l in Hgap. congruence.
Qed.

Lemma supplyOf_loop_missing (accounts : Accounts) (q : Z) :
  accounts (q * 248) = None ->
  (forall j, 0 <= j < page_start q -> walk_bit accounts j = Some true) ->
  forall (fuel : nat) (p t : Z),
    0 <= p <= q -> (Z.to_nat (q - p) < fuel)%nat ->
    supplyOf_loop fuel accounts p t = AccountNotFound q.
Proof.
  intros Hnone Hset. induction fuel as [|fuel IH]; intros p t Hp Hfuel; [lia|].
  simpl. destruct (Z.eq_dec p q) as [->|Hne].
  - rewrite Hnone. reflexivity.
  - destruct (scan_set_page accounts p q t ltac:(lia) Hset)
      as (ledger & -> & ->).
    apply IH; lia.
Qed.

Lemma set_by_enumeration (accounts : Accounts) (k : nat) :
  forallb (fun j => bool_decide (walk_bit accounts j = Some true)) (indices k)
  = true ->
  forall j, 0 <= j < Z.of_nat k -> walk_bit accounts j = Some true.
Proof.
  intros Hall j Hj. rewrite forallb_forall in Hall.
  eapply bool_decide_eq_true_1. apply Hall.
  unfold indices. apply in_map_iff. exists (Z.to_nat j).
  split; [lia|]. apply in_seq. lia.
Qed.

(** X4. [supplyOf] fails, and returns no number, when the walk comes to a
    page whose edition-marker account does not exist: if every edition
    before page [q] is printed and the account of page [q] is missing, the
    call is rejected at page [q].  So it is for an NFT of which no edition
    was printed (no page 0), and for one with exactly 247 editions, whose
    page 0 is full and whose page 1 was never created. *)
Theorem supplyOf_missing_account (accounts : Accounts) (q : Z) (fuel : nat) :
  0 <= q ->
  accounts (q * 248) = None ->
  (forall j, 0 <= j < page_start q -> walk_bit accounts j = Some true) ->
  (Z.to_nat q < fuel)%nat ->
  supplyOf fuel accounts = AccountNotFound q.
Proof.
  intros Hq Hnone Hset Hfuel. unfold supplyOf.
  apply supplyOf_loop_missing; [exact Hnone|exact Hset|lia|].
  replace (q - 0) with q by lia. exact Hfuel.
Qed.

Lemma supplyOf_missing_account_witness :
  supplyOf 1 SampleMarkers.no_editions = AccountNotFound 0 /\
  supplyOf 2 SampleMarkers.full_page = AccountNotFound 1.
Proof.
  split.
  - apply (supplyOf_missing_account SampleMarkers.no_editions 0 1);
      [lia|reflexivity| |lia].
    intros j Hj. change (page_start 0) with 0 in Hj. lia.
  - apply (supplyOf_missing_account SampleMarkers.full_page 1 2);
      [lia|reflexivity| |lia].
    change (page_start 1) with (Z.of_nat 247).
    apply set_by_enumeration. vm_compute. reflexivity.
Defined.

End MissingMarker.

(** ** The drop: supply reads that fail, and the token queries *)

Section DropQueries.

Import Async SignatureDropQueries.

Context {NFT NFTMetadata : Type}.
Variable DEFAULT_QUERY_ALL_COUNT : Z.
Variable get : string -> Settled NFT.
Variable getTokenMetadata : string -> Settled NFTMetadata.

#[local] Arguments BigNumber_from : simpl never.
#[local] Arguments toNumber : simpl never.
#[local] Arguments Array_keys : simpl never.

Lemma toNumber_fits (b : Z) : Z.abs b < 2 ^ 53 -> toNumber b = Fulfilled b.
Proof.
  intros Hb. unfold toNumber, Evm.toNumber.
  destruct (Z.ltb_spec (Z.abs b) (2 ^ 53)); [reflexivity|lia].
Qed.

Lemma toNumber_bound (b n : Z) :
  toNumber b = Fulfilled n -> n = b /\ Z.abs b < 2 ^ 53.
Proof.
  unfold toNumber, Evm.toNumber.
  destruct (Z.ltb_spec (Z.abs b) (2 ^ 53)); simpl; [|discriminate].
  intros [= <-]. split; [reflexivity|assumption].
Qed.

Lemma number_or_bound (value : option BigNumberish) (fallback n : Z) :
  number_or value fallback = Fulfilled n -> Z.abs n < 2 ^ 53.
Proof.
  unfold number_or, mbind, settled_bind, bind.
  destruct (BigNumber_from _) as [big|]; [|discriminate].
  intros [-> Hb]%toNumber_bound. exact Hb.
Qed.

Lemma from_number_fits (n : Z) :
  Z.abs n < 2 ^ 53 - 1 -> BigNumber_from (Primitive n) = Fulfilled n.
Proof.
  intros Hn. unfold BigNumber_from.
  destruct (Z.ltb_spec (Z.abs n) (2 ^ 53 - 1)); [reflexivity|lia].
Qed.

Lemma Array_keys_fits (n : Z) :
  0 <= n < 2 ^ 32 ->
  Array_keys n = Fulfilled (map Z.of_nat (seq 0 (Z.to_nat n))).
Proof.
  intros Hn. unfold Array_keys.
  destruct (Z.leb_spec 0 n), (Z.ltb_spec n (2 ^ 32)); simpl;
    [reflexivity|lia|lia|lia].
Qed.

Lemma Array_keys_negative (n : Z) : n < 0 -> Array_keys n = Rejected RangeError.
Proof.
  intros Hn. unfold Array_keys. destruct (Z.leb_spec 0 n); [lia|reflexivity].
Qed.

Lemma all_length {A} (ps : list (Settled A)) (l : list A) :
  all ps = Fulfilled l -> length l = length ps.
Proof.
  revert l. induction ps as [|p ps IH]; intros l; simpl.
  - intros [= <-]. reflexivity.
  - destruct p as [a|t]; [|discriminate].
    destruct (all ps) as [l'|t]; [|discriminate].
    intros [= <-]. simpl. f_equal. apply IH. reflexivity.
Qed.

Lemma ids_length (first last : Z) :
  first <= last -> Z.of_nat (length (ids first last)) = last - first.
Proof.
  intros H. unfold ids. rewrite length_map, length_seq. lia.
Qed.

Lemma ids_elem (first last t : Z) :
  In t (ids first last) <-> first <= t < last.
Proof.
  unfold ids. rewrite in_map_iff. split.
  - intros (i & <- & Hi%in_seq). lia.
  - intros Ht. exists (Z.to_nat (t - first)). split; [lia|].
    apply in_seq. lia.
Qed.

Lemma map_keys {A} (f : Z -> A) (first last : Z) :
  map (fun i => f (first + i)) (map Z.of_nat (seq 0 (Z.to_nat (last - first))))
  = map f (ids first last).
Proof. unfold ids. rewrite !map_map. reflexivity. Qed.

(** X5. [getAllClaimed] asks for the tokens [0 .. maxId - 1] with [maxId]
    the smaller of the claimed supply and [start + count]: [start] does
    not move the first token, it adds to the number of tokens fetched.  A
    result has one NFT for each of these ids. *)
Theorem getAllClaimed_range (readContract : SignatureDrop.ReadContract)
  (queryParams : option QueryAllParams) (s c m : Z) :
  number_or (queryParams ≫= start) 0 = Fulfilled s ->
  number_or (queryParams ≫= count) DEFAULT_QUERY_ALL_COUNT = Fulfilled c ->
  SignatureDrop.totalMinted readContract = Js.Fulfilled m ->
  0 <= m < 2 ^ 53 ->
  0 <= s + c ->
  Z.min m (s + c) < 2 ^ 32 ->
  getAllClaimed DEFAULT_QUERY_ALL_COUNT get readContract queryParams
  = all (map (fun t => get (pretty t)) (ids 0 (Z.min m (s + c)))) /\
  forall nfts,
    getAllClaimed DEFAULT_QUERY_ALL_COUNT get readContract queryParams
    = Fulfilled nfts ->
    Z.of_nat (length nfts) = Z.min m (s + c).
Proof.
  intros Hs Hc Hm Hmb Hsum Hmax.
  assert (getAllClaimed DEFAULT_QUERY_ALL_COUNT get readContract queryParams
          = all (map (fun t => get (pretty t)) (ids 0 (Z.min m (s + c)))))
    as Heq.
  { unfold getAllClaimed. rewrite Hs, Hc. simpl.
    unfold SignatureDrop.totalClaimedSupply. rewrite Hm. simpl.
    rewrite toNumber_fits by lia. simpl.
    rewrite Array_keys_fits by lia. simpl.
    rewrite <- (map_keys (fun t => get (pretty t)) 0 (Z.min m (s + c))).
    rewrite Z.sub_0_r. reflexivity. }
  split; [exact Heq|]. intros nfts Hnfts. rewrite Heq in Hnfts.
  apply all_length in Hnfts. rewrite Hnfts, length_map.
  rewrite ids_length by lia. lia.
Qed.

(** X6. [getAllUnclaimed] asks for the metadata of the tokens
    [first .. last - 1], where [first] is the larger of the claimed supply
    and [start], and [last] the smaller of [nextTokenIdToMint] and
    [first + count]: none of them is claimed, none lies before [start],
    each was lazy-minted, and there are at most [count] of them. *)
Theorem getAllUnclaimed_range (readContract : SignatureDrop.ReadContract)
  (queryParams : option QueryAllParams) (s c m n : Z) :
  number_or (queryParams ≫= start) 0 = Fulfilled s ->
  number_or (queryParams ≫= count) DEFAULT_QUERY_ALL_COUNT = Fulfilled c ->
  SignatureDrop.totalMinted readContract = Js.Fulfilled m ->
  SignatureDrop.nextTokenIdToMint readContract = Js.Fulfilled n ->
  0 <= m ->
  Z.max m s <= n < 2 ^ 53 - 1 ->
  0 <= c < 2 ^ 32 ->
  let first := Z.max m s in
  let last := Z.min n (first + c) in
  getAllUnclaimed DEFAULT_QUERY_ALL_COUNT getTokenMetadata readContract
    queryParams
  = all (map (fun t => getTokenMetadata (pretty t)) (ids first last)) /\
  Forall (fun t => m <= t /\ s <= t /\ t < n) (ids first last) /\
  Z.of_nat (length (ids first last)) <= c.
Proof.
  intros Hs Hc Hm Hn Hmb Hnb Hcb first last.
  assert (first <= last <= n) as Hfl by (unfold first, last; lia).
  split; [|split].
  - unfold getAllUnclaimed. rewrite Hs, Hc. simpl.
    unfold SignatureDrop.totalClaimedSupply. rewrite Hm, Hn. simpl.
    rewrite (toNumber_fits m) by lia. simpl.
    fold first. rewrite (from_number_fits first) by lia. simpl.
    rewrite (toNumber_fits n) by lia. simpl.
    rewrite (toNumber_fits first) by lia. simpl.
    fold last. rewrite (from_number_fits last) by lia. simpl.
    rewrite (toNumber_fits (last - first)) by lia. simpl.
    rewrite Array_keys_fits by (unfold last; lia). simpl.
    rewrite <- (map_keys (fun t => getTokenMetadata (pretty t)) first last).
    reflexivity.
  - apply List.Forall_forall. intros t Ht%ids_elem. unfold first in *. lia.
  - rewrite ids_length by lia. unfold last. lia.
Qed.

(** X7. With a [start] beyond [nextTokenIdToMint], [getAllUnclaimed] does
    not answer with an empty list: the length handed to [Array] is
    negative and the call is rejected with a [RangeError]. *)
Theorem getAllUnclaimed_start_beyond_minted
  (readContract : SignatureDrop.ReadContract)
  (queryParams : option QueryAllParams) (s c m n : Z) :
  number_or (queryParams ≫= start) 0 = Fulfilled s ->
  number_or (queryParams ≫= count) DEFAULT_QUERY_ALL_COUNT = Fulfilled c ->
  SignatureDrop.totalMinted readContract = Js.Fulfilled m ->
  SignatureDrop.nextTokenIdToMint readContract = Js.Fulfilled n ->
  0 <= m <= n ->
  n < s < 2 ^ 53 - 1 ->
  0 <= c ->
  getAllUnclaimed DEFAULT_QUERY_ALL_COUNT getTokenMetadata readContract
    queryParams
  = Rejected RangeError.
Proof.
  intros Hs Hc Hm Hn Hmb Hsb Hcb.
  unfold getAllUnclaimed. rewrite Hs, Hc. simpl.
  unfold SignatureDrop.totalClaimedSupply. rewrite Hm, Hn. simpl.
  rewrite (toNumber_fits m) by lia. simpl.
  replace (Z.max m s) with s by lia.
  rewrite (from_number_fits s) by lia. simpl.
  rewrite (toNumber_fits n) by lia. simpl.
  rewrite (toNumber_fits s) by lia. simpl.
  replace (Z.min n (s + c)) with n by lia.
  rewrite (from_number_fits n) by lia. simpl.
  rewrite (toNumber_fits (n - s)) by lia. simpl.
  rewrite Array_keys_negative by lia. reflexivity.
Qed.

(** X8. A [count] given as the number 0 is no count: [0 || d] is [d], and
    both queries answer as they do without a [count]. *)
Theorem zero_count_is_default (readContract : SignatureDrop.ReadContract)
  (start : option BigNumberish) :
  let zero := Some {| start := start; count := Some (Primitive 0) |} in
  let missing := Some {| start := start; count := None |} in
  getAllClaimed DEFAULT_QUERY_ALL_COUNT get readContract zero
  = getAllClaimed DEFAULT_QUERY_ALL_COUNT get readContract missing /\
  getAllUnclaimed DEFAULT_QUERY_ALL_COUNT getTokenMetadata readContract zero
  = getAllUnclaimed DEFAULT_QUERY_ALL_COUNT getTokenMetadata readContract
      missing.
Proof. split; reflexivity. Qed.

End DropQueries.


Lemma getAllClaimed_range_witness :
  SignatureDropQueries.getAllClaimed 100 SampleDrop.get SampleDrop.reads
    (SampleDrop.from 1 1)
  = Async.all [SampleDrop.get "0"; SampleDrop.get "1"].
Proof.
  apply (proj1 (getAllClaimed_range 100 SampleDrop.get SampleDrop.reads
                  (SampleDrop.from 1 1) 1 1 3
                  eq_refl eq_refl eq_refl ltac:(lia) ltac:(lia) ltac:(lia))).
Defined.

Lemma getAllUnclaimed_range_witness :
  SignatureDropQueries.getAllUnclaimed 100 SampleDrop.getTokenMetadata
    SampleDrop.reads (SampleDrop.from 1 10)
  = Async.all [SampleDrop.getTokenMetadata "3";
               SampleDrop.getTokenMetadata "4"].
Proof.
  apply (proj1 (getAllUnclaimed_range 100 SampleDrop.getTokenMetadata
                  SampleDrop.reads (SampleDrop.from 1 10) 1 10 3 5
                  eq_refl eq_refl eq_refl eq_refl
                  ltac:(lia) ltac:(lia) ltac:(lia))).
Defined.

Lemma getAllUnclaimed_start_beyond_minted_witness :
  SignatureDropQueries.getAllUnclaimed 100 SampleDrop.getTokenMetadata
    SampleDrop.reads (SampleDrop.from 10 2)
  = Async.Rejected Async.RangeError.
Proof.
  apply (getAllUnclaimed_start_beyond_minted 100 SampleDrop.getTokenMetadata
           SampleDrop.reads (SampleDrop.from 10 2) 10 2 3 5);
    first [reflexivity | lia].
Defined.

(** ** The drop: supply reads that fail *)

Section DropSupplyFailures.

Import Js.

(** X9. The supply methods of the drop never throw at the call site, and a
    read of the contract that fails rejects them with its own error:
    [totalClaimedSupply] and [totalSupply] with the error of
    [totalMinted()] when that read fails, [totalUnclaimedSupply] with the
    error of [nextTokenIdToMint()] when that read fails, whatever the
    other read does; and [totalSupply] with the error of
    [nextTokenIdToMint()] when only that read fails. *)
Theorem supply_reads_reject (readContract : SignatureDrop.ReadContract) :
  (forall e,
     SignatureDrop.totalMinted readContract = Rejected e ->
     SignatureDrop.totalClaimedSupply readContract = Normal (Rejected e) /\
     SignatureDrop.totalSupply readContract = Normal (Rejected e)) /\
  (forall e,
     SignatureDrop.nextTokenIdToMint readContract = Rejected e ->
     SignatureDrop.totalUnclaimedSupply readContract = Normal (Rejected e)) /\
  (forall m e,
     SignatureDrop.totalMinted readContract = Fulfilled m ->
     SignatureDrop.nextTokenIdToMint readContract = Rejected e ->
     SignatureDrop.totalSupply readContract = Normal (Rejected e)) /\
  (forall n e,
     SignatureDrop.nextTokenIdToMint readContract = Fulfilled n ->
     SignatureDrop.totalMinted readContract = Rejected e ->
     SignatureDrop.totalUnclaimedSupply readContract = Normal (Rejected e)) /\
  (exists p q r,
     SignatureDrop.totalClaimedSupply readContract = Normal p /\
     SignatureDrop.totalUnclaimedSupply readContract = Normal q /\
     SignatureDrop.totalSupply readContract = Normal r).
Proof.
  unfold SignatureDrop.totalSupply, SignatureDrop.totalUnclaimedSupply,
    SignatureDrop.totalClaimedSupply.
  destruct (SignatureDrop.totalMinted readContract) as [m|e1],
           (SignatureDrop.nextTokenIdToMint readContract) as [n|e2];
    simpl; repeat split; try (intros; congruence);
    eexists _, _, _; repeat split.
Qed.

Lemma supply_reads_reject_witness :
  SignatureDrop.totalSupply SampleDrop.failing
  = Normal (Rejected (CallException "minted")) /\
  SignatureDrop.totalUnclaimedSupply SampleDrop.failing
  = Normal (Rejected (CallException "next")).
Proof.
  destruct (supply_reads_reject SampleDrop.failing)
    as (Hminted & Hnext & _).
  split.
  - apply (Hminted (CallException "minted")). reflexivity.
  - apply (Hnext (CallException "next")). reflexivity.
Defined.

End DropSupplyFailures.

(** ** The façade: methods for the connected wallet, and token reads *)

Section FacadeWallet.

Import Js Probe Evm Erc1155.

Variable invoke : Handle -> string -> list Value -> Promise Value.

Lemma async_idem {A} (body : Completion (Promise A)) :
  async (async body) = async body.
Proof. destruct body; reflexivity. Qed.

(** X10. With a signer connected, each method for the connected wallet is
    the method for a receiver at the address of the signer: [mint] is
    [mintTo], [mintBatch] is [mintBatchTo], [claim] is [claimTo] and
    [mintAdditionalSupply] is [mintAdditionalSupplyTo], with the same
    result on every façade. *)
Theorem wallet_methods_delegate (heap : Heap) (e : Erc1155)
  (w : ContractWrapper) (a : Address) :
  wrappers heap !! contractWrapper e = Some w ->
  signer w = Some a ->
  (forall metadataWithSupply,
     mint invoke heap e metadataWithSupply
     = mintTo invoke e a metadataWithSupply) /\
  (forall metadataWithSupply,
     mintBatch invoke heap e metadataWithSupply
     = mintBatchTo invoke e a metadataWithSupply) /\
  (forall tokenId quantity options,
     claim invoke heap e tokenId quantity options
     = claimTo invoke e a tokenId quantity options) /\
  (forall tokenId additionalSupply,
     mintAdditionalSupply invoke heap e tokenId additionalSupply
     = mintAdditionalSupplyTo invoke e a tokenId additionalSupply).
Proof.
  intros Hw Hs.
  assert (getSignerAddress w = Fulfilled a) as Ha
    by (unfold getSignerAddress; rewrite Hs; reflexivity).
  split; [|split; [|split]]; intros.
  - unfold mint, wrapper_of. rewrite Hw. simpl. rewrite Ha. simpl.
    unfold mintTo. apply async_idem.
  - unfold mintBatch, wrapper_of. rewrite Hw. simpl. rewrite Ha. simpl.
    unfold mintBatchTo. apply async_idem.
  - unfold claim, wrapper_of. rewrite Hw. simpl. rewrite Ha. simpl.
    unfold claimTo. apply async_idem.
  - unfold mintAdditionalSupply, mintAdditionalSupplyTo, wrapper_of.
    destruct (assertEnabled (mintable e) FEATURE_EDITION_MINTABLE);
      [|reflexivity].
    simpl. rewrite Hw. simpl. rewrite Ha. reflexivity.
Qed.

(** X11. When the address of the signer cannot be had, [mint], [mintBatch]
    and [claim] are rejected with that failure on every façade, also on
    one without the capability, since the address is awaited before the
    guarded method is called; [mintAdditionalSupply] checks the capability
    first and reports a missing Mintable extension instead. *)
Theorem wallet_methods_without_signer (heap : Heap) (e : Erc1155)
  (w : ContractWrapper) (err : Error) :
  wrappers heap !! contractWrapper e = Some w ->
  getSignerAddress w = Rejected err ->
  (forall metadataWithSupply,
     mint invoke heap e metadataWithSupply = Normal (Rejected err)) /\
  (forall metadataWithSupply,
     mintBatch invoke heap e metadataWithSupply = Normal (Rejected err)) /\
  (forall tokenId quantity options,
     claim invoke heap e tokenId quantity options = Normal (Rejected err)) /\
  (forall tokenId additionalSupply,
     mintAdditionalSupply invoke heap e tokenId additionalSupply
     = Normal (Rejected
                 (if present e Mintable then err
                  else ExtensionNotImplementedError FEATURE_EDITION_MINTABLE))).
Proof.
  intros Hw Ha.
  split; [|split; [|split]]; intros.
  - unfold mint, wrapper_of. rewrite Hw. simpl. rewrite Ha. reflexivity.
  - unfold mintBatch, wrapper_of. rewrite Hw. simpl. rewrite Ha. reflexivity.
  - unfold claim, wrapper_of. rewrite Hw. simpl. rewrite Ha. reflexivity.
  - unfold mintAdditionalSupply, wrapper_of. simpl.
    destruct (mintable e); simpl; [|reflexivity].
    rewrite Hw. simpl. rewrite Ha. reflexivity.
Qed.

End FacadeWallet.

Lemma wallet_methods_delegate_witness :
  Erc1155.mint Sample.invoke SampleFacades.minter_heap SampleFacades.minter
    (Erc1155.VString "ipfs://metadata")
  = Js.Normal (Js.Fulfilled (Erc1155.VString "to")).
Proof.
  rewrite (proj1 (wallet_methods_delegate Sample.invoke
                    SampleFacades.minter_heap SampleFacades.minter
                    (Sample.wrapper SampleFacades.minting) "0xsigner"
                    eq_refl eq_refl)).
  reflexivity.
Defined.

Lemma wallet_methods_without_signer_witness :
  Erc1155.mint Sample.invoke SampleFacades.unsigned_heap Sample.bare
    (Erc1155.VString "ipfs://metadata")
  = Js.Normal (Js.Rejected Js.NoSignerError) /\
  Erc1155.mintAdditionalSupply Sample.invoke SampleFacades.unsigned_heap
    Sample.bare 0 1
  = Js.Normal (Js.Rejected
                 (Js.ExtensionNotImplementedError FEATURE_EDITION_MINTABLE)).
Proof.
  destruct (wallet_methods_without_signer Sample.invoke
              SampleFacades.unsigned_heap Sample.bare _ Js.NoSignerError
              eq_refl eq_refl)
    as (Hmint & _ & _ & Hadd).
  split; [apply Hmint|apply Hadd].
Defined.

(** ** The façade: token metadata and supply *)

Section FacadeReads.

Import Js Evm.

(** X12. [getTokenMetadata] by what the contract answers to [uri]: on a
    contract without a [uri] function the call is a [TypeError]; an empty
    URI is a [NotFoundError], a failing call is passed on, and any other
    URI is handed to the storage, whose answer is the result.  On a
    contract that has a [totalSupply] function, [get] is rejected with
    the failure of [getTokenMetadata], whatever the total supply is. *)
Theorem getTokenMetadata_by_uri (heap : Heap) (e : Erc1155.Erc1155)
  (tokenId : Z) (w : ContractWrapper) :
  wrappers heap !! Erc1155.contractWrapper e = Some w ->
  (uri (readContract w) = None ->
   Erc1155.getTokenMetadata heap e tokenId = Normal (Rejected TypeError)) /\
  (forall f,
     uri (readContract w) = Some f ->
     (f tokenId = Fulfilled "" ->
      Erc1155.getTokenMetadata heap e tokenId
      = Normal (Rejected NotFoundError)) /\
     (forall err,
        f tokenId = Rejected err ->
        Erc1155.getTokenMetadata heap e tokenId = Normal (Rejected err)) /\
     (forall tokenUri,
        f tokenId = Fulfilled tokenUri ->
        tokenUri <> "" ->
        Erc1155.getTokenMetadata heap e tokenId
        = Normal (fetchTokenMetadata (Erc1155.storage e) tokenId tokenUri))) /\
  (forall err,
     is_Some (totalSupply (readContract w)) ->
     Erc1155.getTokenMetadata heap e tokenId = Normal (Rejected err) ->
     Erc1155.get heap e tokenId = Normal (Rejected err)).
Proof.
  intros Hw. split; [|split].
  - intros Hnone. unfold Erc1155.getTokenMetadata, Erc1155.wrapper_of.
    rewrite Hw. simpl. rewrite Hnone. reflexivity.
  - intros f Hf. unfold Erc1155.getTokenMetadata, Erc1155.wrapper_of.
    rewrite Hw. simpl. rewrite Hf. simpl. split; [|split].
    + intros ->. reflexivity.
    + intros err ->. reflexivity.
    + intros tokenUri -> Hne. simpl.
      rewrite bool_decide_eq_false_2 by exact Hne. reflexivity.
  - intros err [f Hf] Hmeta. unfold Erc1155.get, Erc1155.wrapper_of.
    rewrite Hw. simpl. rewrite Hf. simpl. rewrite Hmeta. simpl.
    destruct (f tokenId); reflexivity.
Qed.

(** X13. The supply that [get] reports is the one that [totalSupply]
    returns whenever both succeed; where [totalSupply] is rejected, a
    [get] that succeeds reports 0. *)
Theorem get_supply_is_totalSupply (heap : Heap) (e : Erc1155.Erc1155)
  (tokenId : Z) (nft : Erc1155.NFT) :
  Erc1155.get heap e tokenId = Normal (Fulfilled nft) ->
  (forall v,
     Erc1155.totalSupply heap e tokenId = Normal (Fulfilled v) ->
     Erc1155.supply nft = v) /\
  (forall err,
     Erc1155.totalSupply heap e tokenId = Normal (Rejected err) ->
     Erc1155.supply nft = 0).
Proof.
  unfold Erc1155.get, Erc1155.totalSupply, Erc1155.wrapper_of.
  destruct (wrappers heap !! Erc1155.contractWrapper e) as [w|];
    [|discriminate].
  simpl.
  destruct (totalSupply (readContract w)) as [f|]; [|discriminate].
  simpl.
  destruct (Erc1155.getTokenMetadata heap e tokenId) as [p|err0];
    [|discriminate].
  simpl.
  destruct (f tokenId) as [v|err1], p as [md|err2]; simpl;
    try discriminate.
  - unfold toNumber. destruct (Z.abs v <? 2 ^ 53); simpl; [|discriminate].
    intros [= <-]. split; [intros v' [= <-]; reflexivity|discriminate].
  - intros [= <-]. split; [discriminate|reflexivity].
Qed.

End FacadeReads.

Lemma getTokenMetadata_by_uri_witness :
  Erc1155.getTokenMetadata SampleFacades.no_uri_heap Sample.burner 7
  = Js.Normal (Js.Rejected Js.NotFoundError) /\
  Erc1155.get SampleFacades.no_uri_heap Sample.burner 7
  = Js.Normal (Js.Rejected Js.NotFoundError) /\
  Erc1155.getTokenMetadata Sample.burner_heap Sample.burner 7
  = Js.Normal (Js.Fulfilled "ipfs://token").
Proof.
  destruct (getTokenMetadata_by_uri SampleFacades.no_uri_heap Sample.burner 7
              _ eq_refl) as (_ & Huri & Hget).
  destruct (Huri (fun _ => Js.Fulfilled "") eq_refl) as (Hempty & _ & _).
  split; [exact (Hempty eq_refl)|]. split.
  - apply Hget; [eexists; reflexivity|exact (Hempty eq_refl)].
  - destruct (getTokenMetadata_by_uri Sample.burner_heap Sample.burner 7
                _ eq_refl) as (_ & Huri' & _).
    destruct (Huri' (fun _ => Js.Fulfilled "ipfs://token") eq_refl)
      as (_ & _ & Hfetch).
    apply (Hfetch "ipfs://token"); [reflexivity|discriminate].
Defined.

Lemma get_supply_is_totalSupply_witness :
  let nft :=
    {| Erc1155.owner := Evm.AddressZero; Erc1155.metadata := "ipfs://token";
       Erc1155.type := "ERC1155"; Erc1155.supply := 5 |} in
  Erc1155.get Sample.burner_heap Sample.burner 7 = Js.Normal (Js.Fulfilled nft)
  /\ Erc1155.totalSupply Sample.burner_heap Sample.burner 7
     = Js.Normal (Js.Fulfilled 5)
  /\ Erc1155.supply nft = 5.
Proof.
  split; [reflexivity|]. split; [reflexivity|].
  apply (proj1 (get_supply_is_totalSupply Sample.burner_heap Sample.burner 7
                  _ eq_refl) 5).
  reflexivity.
Defined.
